(** * Customer churn prediction app: the prediction pipeline and its history ledger

    A shallow embedding of [src/app/app.py].  The script is a Streamlit page:
    it loads a pickled model bundle, draws one numeric input per feature,
    and, when the "Predict Churn" button is pressed, assembles the feature
    row, imputes, scales, classifies, and appends the inputs and the outcome
    to [prediction_history.csv].

    What is modelled, and how:
    - numbers (Python floats and ints) are rationals [Q]; the script does no
      arithmetic on them, it only stores, compares with [1] and passes on;
      what the CSV reader makes of a number that was written to the history
      file is left open (it is a function of the world, [csv_number]);
    - a Python [dict] is an association list in insertion order;
    - the fitted scikit-learn objects of the bundle are functions that
      return a value or raise;
    - the script is a computation in a state-and-exception monad over a
      [world]: the history file, whether it can be written, the record of
      the calls made to the bundle's objects, and the elements drawn on the
      page.  An exception that nothing catches ends the script run: what was
      done before it stays done, what comes after it does not happen.

    Styling, the page title and the sidebar metrics are presentation only
    and are left out. *)

From Stdlib Require Import String List ZArith QArith Bool Lia Lqa Permutation.
From Stdlib Require Import DecimalString.
Import ListNotations.
Open Scope string_scope.
Open Scope list_scope.

(** ** Python dictionaries *)

Module Dict.
Section Dict.
Context {V : Type}.

Definition dict := list (string * V).

(** [d[k]]: the value stored under [k], if any. *)
Fixpoint get (d : dict) (k : string) : option V :=
  match d with
  | [] => None
  | (k', v) :: d' => if String.eqb k k' then Some v else get d' k
  end.

(** [d[k] = v]: a key already there keeps its place, a new one goes last. *)
Fixpoint set (d : dict) (k : string) (v : V) : dict :=
  match d with
  | [] => [(k, v)]
  | (k', v') :: d' =>
      if String.eqb k k' then (k', v) :: d' else (k', v') :: set d' k v
  end.

Definition keys (d : dict) : list string := map fst d.
Definition values (d : dict) : list V := map snd d.

(** [d.copy()]: the embedding is persistent, a copy is the value itself. *)
Definition copy (d : dict) : dict := d.
End Dict.
Arguments dict V : clear implicits.
End Dict.

Abbreviation dict := Dict.dict.

(** ** Exceptions and results *)

Inductive exn : Type :=
| KeyError (key : string)       (* [values[c]] on a key that is not there *)
| IndexError                    (* [xs[i]] out of range *)
| ValueError                    (* pandas: data does not fit the columns *)
| OSError                       (* the history file cannot be written *)
| EstimatorError (msg : string) (* raised inside a fitted estimator *).

Inductive result (A : Type) : Type :=
| Ok (a : A)
| Raise (e : exn).
Arguments Ok {A} a.
Arguments Raise {A} e.

(** ** Data frames and arrays *)

Inductive cell : Type :=
| NaN
| Num (q : Q).

Record DataFrame : Type := mkDataFrame {
  columns : list string;
  data : list (list cell)       (* row-major *)
}.

Definition ndarray := list (list cell).

(** [pd.DataFrame(arr, columns=cols)]: every row must be as wide as [cols]. *)
Definition DataFrame_of_array (arr : ndarray) (cols : list string)
  : result DataFrame :=
  if forallb (fun r => Nat.eqb (length r) (length cols)) arr
  then Ok (mkDataFrame cols arr)
  else Raise ValueError.

(** [pd.DataFrame([row])] for a dict [row]: one row, the keys as columns. *)
Definition DataFrame_of_record (row : dict Q) : DataFrame :=
  mkDataFrame (Dict.keys row) [map Num (Dict.values row)].

(** The cell of a row under column [c], the row being laid out along [cols]. *)
Fixpoint cell_at (cols : list string) (r : list cell) (c : string)
  : option cell :=
  match cols, r with
  | k :: cols', x :: r' => if String.eqb c k then Some x else cell_at cols' r' c
  | _, _ => None
  end.

(** A row laid out along [cols], re-laid along [cols']; absent cells are NaN. *)
Definition reindex (cols cols' : list string) (r : list cell) : list cell :=
  map (fun c => match cell_at cols r c with Some x => x | None => NaN end) cols'.

Definition mem (c : string) (cols : list string) : bool :=
  existsb (String.eqb c) cols.

(** [pd.concat([a, b], ignore_index=True)]: the columns of [a], then those of
    [b] that [a] does not have; the rows of [a], then the rows of [b]. *)
Definition concat (a b : DataFrame) : DataFrame :=
  let cols :=
    columns a ++ filter (fun c => negb (mem c (columns a))) (columns b) in
  mkDataFrame cols
    (map (reindex (columns a) cols) (data a) ++
     map (reindex (columns b) cols) (data b)).

(** The rows of a frame as records, column name to cell. *)
Definition records (df : DataFrame) : list (dict cell) :=
  map (fun r => combine (columns df) r) (data df).

(** ** The model bundle: [saved] *)

Record Imputer : Type := { imputer_transform : DataFrame -> result ndarray }.
Record Scaler : Type := { scaler_transform : ndarray -> result ndarray }.
Record Classifier : Type := {
  predict : DataFrame -> result (list Z);
  predict_proba : DataFrame -> result (list (list Q))
}.

Record Saved : Type := {
  model : Classifier;
  num_imputer : Imputer;
  num_scaler : Scaler;
  numeric_cols : list string
}.

(** ** The world the script runs in *)

Inductive call : Type :=
| CallImputer (X : DataFrame)
| CallScaler (X : ndarray)
| CallPredict (X : DataFrame)
| CallPredictProba (X : DataFrame).

Inductive element : Type :=
| NumberInput (label : string) (min_value : option Q) (value : Q)
| Button (label : string)
| Info (msg : string)
| PredictionCard (churn : bool) (proba : Q)
| Placeholder
| Subheader (title : string)
| Dataframe (df : DataFrame)
| Text (msg : string).

(** The history file holds the table that [to_csv] last wrote, as written.
    A file that exists has a header line: an empty or damaged file is not a
    state of this world (the script writes no table without the columns
    [Prediction] and [Churn_Probability], and nothing else writes the file).
    [csv_number] is the number that [pd.read_csv] makes of the text that
    [to_csv] printed for a number; its converter is not documented to give
    back every number exactly. *)
Record world : Type := mkWorld {
  history_file : option DataFrame;  (* [prediction_history.csv]; None: absent *)
  disk_writable : bool;
  calls : list call;                (* oldest first *)
  page : list element;              (* top to bottom *)
  csv_number : Q -> Q
}.

(** What the user did on the page before this run of the script. *)
Record Session : Type := {
  entered : string -> option Q;     (* the number typed into a field *)
  clicked : bool                    (* "Predict Churn" was pressed *)
}.

(** ** The script monad *)

Definition M (A : Type) : Type := world -> result A * world.

Definition ret {A} (a : A) : M A := fun w => (Ok a, w).
Definition raise {A} (e : exn) : M A := fun w => (Raise e, w).
Definition bind {A B} (m : M A) (k : A -> M B) : M B :=
  fun w => match m w with
           | (Ok a, w') => k a w'
           | (Raise e, w') => (Raise e, w')
           end.
Definition lift {A} (r : result A) : M A := fun w => (r, w).

Notation "x <- m ;; k" := (bind m (fun x => k))
  (at level 61, m at next level, right associativity).
Notation "m ;;; k" := (bind m (fun _ => k))
  (at level 61, right associativity).

(** ** Library calls, as far as the script relies on them *)

Definition with_page (w : world) (drawn : list element) : world :=
  mkWorld (history_file w) (disk_writable w) (calls w) (page w ++ drawn)
          (csv_number w).

Definition with_calls (w : world) (made : list call) : world :=
  mkWorld (history_file w) (disk_writable w) (calls w ++ made) (page w)
          (csv_number w).

Definition with_history (w : world) (hist : DataFrame) : world :=
  mkWorld (Some hist) (disk_writable w) (calls w) (page w) (csv_number w).

Definition draw (e : element) : M unit := fun w => (Ok tt, with_page w [e]).

Definition record_call (c : call) : M unit :=
  fun w => (Ok tt, with_calls w [c]).

(** [st.number_input(label, min_value=..., value=...)]: draws the field and
    returns the number the user typed; an untouched field, or a number below
    [min_value] (which the field does not accept), gives the default. *)
Definition accepted_value (s : Session) (label : string)
    (min_value : option Q) (value : Q) : Q :=
  match entered s label with
  | None => value
  | Some v =>
      match min_value with
      | Some m => if Qle_bool m v then v else value
      | None => v
      end
  end.

Definition st_number_input (s : Session) (label : string)
    (min_value : option Q) (value : Q) : M Q :=
  draw (NumberInput label min_value value) ;;;
  ret (accepted_value s label min_value value).

Definition st_button (s : Session) (label : string) : M bool :=
  draw (Button label) ;;; ret (clicked s).

Definition st_subheader (title : string) : M unit := draw (Subheader title).
Definition st_info (msg : string) : M unit := draw (Info msg).
Definition st_write (msg : string) : M unit := draw (Text msg).
Definition st_dataframe (df : DataFrame) : M unit := draw (Dataframe df).

(** [os.path.exists(HISTORY_FILE)] *)
Definition os_path_exists : M bool :=
  fun w => (Ok match history_file w with Some _ => true | None => false end, w).

(** [str(i)] *)
Definition str_of_nat (i : nat) : string :=
  NilEmpty.string_of_uint (Nat.to_uint i).

(** The header as [pd.read_csv] names it: a column whose name is empty is
    called [Unnamed: i], [i] its position from 0. *)
Fixpoint header_as_read (i : nat) (names : list string) : list string :=
  match names with
  | [] => []
  | name :: rest =>
      (if String.eqb name ""
       then String.append "Unnamed: " (str_of_nat i)
       else name)
      :: header_as_read (S i) rest
  end.

Definition cell_as_read (number : Q -> Q) (x : cell) : cell :=
  match x with
  | NaN => NaN
  | Num q => Num (number q)
  end.

(** The table that [pd.read_csv] gives for the file that holds [df]: the
    header renamed, the numbers as the reader converts them, an empty field
    NaN.  (pandas also tells repeated names apart by a suffix; none of the
    tables read below has a name twice.) *)
Definition as_read (number : Q -> Q) (df : DataFrame) : DataFrame :=
  mkDataFrame (header_as_read 0 (columns df))
              (map (map (cell_as_read number)) (data df)).

(** [pd.read_csv(HISTORY_FILE)] *)
Definition pd_read_csv : M DataFrame :=
  fun w => match history_file w with
           | Some df => (Ok (as_read (csv_number w) df), w)
           | None => (Raise OSError, w)
           end.

(** [hist.to_csv(HISTORY_FILE, index=False)]: replaces the file by the whole
    table; on a disk that refuses the write it raises and writes nothing. *)
Definition to_csv (hist : DataFrame) : M unit :=
  fun w => if disk_writable w
           then (Ok tt, with_history w hist)
           else (Raise OSError, w).

(** [xs[i]] *)
Definition index {A} (xs : list A) (i : nat) : result A :=
  match nth_error xs i with
  | Some x => Ok x
  | None => Raise IndexError
  end.

(** [needle in haystack] on strings *)
Fixpoint contains (needle haystack : string) : bool :=
  String.prefix needle haystack ||
  match haystack with
  | EmptyString => false
  | String _ rest => contains needle rest
  end.

(** ** The script *)

Section Script.
Variable saved : Saved.
Variable session : Session.

(** Lines 145-161: the field drawn for one column. *)
Definition input_field (col : string) : M Q :=
  let label := col in
  if contains "Age" col then st_number_input session label (Some 0%Q) 30%Q
  else if contains "Tenure" col then st_number_input session label (Some 0%Q) 12%Q
  else if contains "Usage" col then st_number_input session label (Some 0%Q) 10%Q
  else if contains "Support" col then st_number_input session label (Some 0%Q) 1%Q
  else if contains "Delay" col then st_number_input session label (Some 0%Q) 0%Q
  else if contains "Spend" col then st_number_input session label (Some 0%Q) 500%Q
  else if contains "Interaction" col then st_number_input session label (Some 0%Q) 7%Q
  else st_number_input session label None 0%Q.

(** Lines 143-161: [values = {}], then one field per column. *)
Fixpoint input_loop (cols : list string) (values : dict Q) : M (dict Q) :=
  match cols with
  | [] => ret values
  | col :: cols' =>
      v <- input_field col ;;
      input_loop cols' (Dict.set values col v)
  end.

Definition input_form : M (dict Q) := input_loop (numeric_cols saved) [].

(** [[values[c] for c in cols]]: left to right, the first absent key raises. *)
Fixpoint lookup_all (values : dict Q) (cols : list string)
  : result (list Q) :=
  match cols with
  | [] => Ok []
  | c :: cols' =>
      match Dict.get values c with
      | None => Raise (KeyError c)
      | Some v =>
          match lookup_all values cols' with
          | Ok vs => Ok (v :: vs)
          | Raise e => Raise e
          end
      end
  end.

(** Line 171: the one-row frame in the bundle's column order. *)
Definition assemble (values : dict Q) : result DataFrame :=
  match lookup_all values (numeric_cols saved) with
  | Ok vs => Ok (mkDataFrame (numeric_cols saved) [map Num vs])
  | Raise e => Raise e
  end.

Definition call_imputer (X : DataFrame) : M ndarray :=
  record_call (CallImputer X) ;;; lift (imputer_transform (num_imputer saved) X).
Definition call_scaler (X : ndarray) : M ndarray :=
  record_call (CallScaler X) ;;; lift (scaler_transform (num_scaler saved) X).
Definition call_predict (X : DataFrame) : M (list Z) :=
  record_call (CallPredict X) ;;; lift (predict (model saved) X).
Definition call_predict_proba (X : DataFrame) : M (list (list Q)) :=
  record_call (CallPredictProba X) ;;; lift (predict_proba (model saved) X).

(** Lines 171-184: assemble, impute, scale, classify. *)
Definition predict_pipeline (values : dict Q) : M (Z * Q) :=
  X_num <- lift (assemble values) ;;
  X_num_imp <- call_imputer X_num ;;
  X_num_scaled <- call_scaler X_num_imp ;;
  X_num_scaled <- lift (DataFrame_of_array X_num_scaled (numeric_cols saved)) ;;
  let X_final := X_num_scaled in
  preds <- call_predict X_final ;;
  pred <- lift (index preds 0) ;;
  probas <- call_predict_proba X_final ;;
  first <- lift (index probas 0) ;;
  proba <- lift (index first 1) ;;
  ret (pred, proba).

(** Lines 187-189: the history row; [int(pred)] and [float(proba)] keep the
    number. *)
Definition history_row (values : dict Q) (pred : Z) (proba : Q) : dict Q :=
  let row := Dict.copy values in
  let row := Dict.set row "Prediction" (inject_Z pred) in
  Dict.set row "Churn_Probability" proba.

(** Lines 191-197: read the whole table if there is one, add the row, write
    the whole table back. *)
Definition append (row : dict Q) : M unit :=
  there <- os_path_exists ;;
  hist <- (if there : bool
           then hist <- pd_read_csv ;;
                ret (concat hist (DataFrame_of_record row))
           else ret (DataFrame_of_record row)) ;;
  to_csv hist.

(** Lines 187-198; the notice is the script's, without its check mark. *)
Definition save_history (values : dict Q) (pred : Z) (proba : Q) : M unit :=
  append (history_row values pred proba) ;;;
  st_info "Prediction saved to history".

(** Lines 169-198: what pressing the button runs. *)
Definition on_predict (values : dict Q) : M (Z * Q) :=
  r <- predict_pipeline values ;;
  save_history values (fst r) (snd r) ;;;
  ret r.

(** Lines 203-235: the card, or the hint when nothing was predicted. *)
Definition prediction_card (outcome : option (Z * Q)) : M unit :=
  st_subheader "Prediction" ;;;
  match outcome with
  | Some (pred, proba) => draw (PredictionCard (Z.eqb pred 1) proba)
  | None => draw Placeholder
  end.

(** Lines 240-245: the history table, or a note when there is no file. *)
Definition history_section : M unit :=
  st_subheader "Prediction History" ;;;
  there <- os_path_exists ;;
  if there : bool
  then hist <- pd_read_csv ;; st_dataframe hist
  else st_write "No predictions made yet.".

(** The script, top to bottom (lines 140-245). *)
Definition app : M unit :=
  st_subheader "Enter customer details" ;;;
  values <- input_form ;;
  pressed <- st_button session "Predict Churn" ;;
  outcome <- (if pressed : bool
              then r <- on_predict values ;; ret (Some r)
              else ret None) ;;
  prediction_card outcome ;;;
  history_section.
End Script.

(** The ledger read back: the rows of the history file, none when the file
    does not exist (the guard of lines 191 and 241 before [pd.read_csv]). *)
Definition read_all : M (list (dict cell)) :=
  there <- os_path_exists ;;
  if there : bool
  then hist <- pd_read_csv ;; ret (records hist)
  else ret [].

(** ** Loading the bundle, the sidebar, and the script from its first line *)

(** A confusion matrix as it was pickled, by rows: a NumPy array (what
    scikit-learn returns) or a list of lists (the same after [tolist()]).
    [pd.DataFrame] does not treat the two alike. *)
Inductive matrix : Type :=
| NdArray (rows : list (list Z))        (* all rows of one width *)
| NestedList (rows : list (list Z)).

Definition matrix_rows (m : matrix) : list (list Z) :=
  match m with
  | NdArray rows => rows
  | NestedList rows => rows
  end.

(** The dict unpickled from [models/churn_model.pkl], key by key: [None] is
    a key that is not there.  The objects under the keys have the types the
    training script gave them. *)
Record Pickled : Type := {
  pickled_model : option Classifier;
  pickled_num_imputer : option Imputer;
  pickled_num_scaler : option Scaler;
  pickled_numeric_cols : option (list string);
  pickled_accuracy : option Q;
  pickled_confusion_matrix : option matrix;
  pickled_report : option string
}.

(** Lines 27-29: what [saved.get(key, None)] gave. *)
Record Metrics : Type := {
  model_accuracy : option Q;
  model_cm : option matrix;
  model_report : option string
}.

(** [saved[key]] *)
Definition subscript {A} (key : string) (field : option A) : result A :=
  match field with
  | Some a => Ok a
  | None => Raise (KeyError key)
  end.

(** Lines 18-29: open the file, unpickle, take the four objects the pipeline
    needs and the three that only the sidebar shows.  [None] is a model file
    that is not there. *)
Definition load_model (file : option Pickled) : result (Saved * Metrics) :=
  match file with
  | None => Raise OSError
  | Some saved =>
    match subscript "model" (pickled_model saved) with
    | Raise e => Raise e
    | Ok model =>
      match subscript "num_imputer" (pickled_num_imputer saved) with
      | Raise e => Raise e
      | Ok num_imputer =>
        match subscript "num_scaler" (pickled_num_scaler saved) with
        | Raise e => Raise e
        | Ok num_scaler =>
          match subscript "numeric_cols" (pickled_numeric_cols saved) with
          | Raise e => Raise e
          | Ok numeric_cols =>
              Ok (Build_Saved model num_imputer num_scaler numeric_cols,
                  Build_Metrics (pickled_accuracy saved)
                                (pickled_confusion_matrix saved)
                                (pickled_report saved))
          end
        end
      end
    end
  end.

Inductive sidebar_element : Type :=
| SidebarTitle (title : string)
| SidebarMetric (label : string) (value : Q)
| SidebarText (msg : string)
| SidebarTable (index cols : list string) (cells : list (list Z))
| SidebarExpander (label : string) (body : string).

(** The length of the longest row. *)
Definition widest (rows : list (list Z)) : nat :=
  fold_right (fun r n => Nat.max (length r) n) 0%nat rows.

(** Lines 97-101: [pd.DataFrame(model_cm, index=[2 names], columns=[2 names])].
    An array must have two rows and two columns, any other shape raises.  Of
    a list of lists the longest row must have two entries (shorter rows are
    filled up); there may be two rows, or one, which is then used for both
    index names, or none at all, which gives a table of empty cells; another
    number of rows raises.  The table drawn is the one pandas built from the
    rows given here. *)
Definition confusion_frame (cm : matrix) : result sidebar_element :=
  let table :=
    SidebarTable ["Actual 0"; "Actual 1"] ["Pred 0"; "Pred 1"]
                 (matrix_rows cm) in
  match cm with
  | NdArray rows =>
      if Nat.eqb (length rows) 2
         && forallb (fun r => Nat.eqb (length r) 2) rows
      then Ok table
      else Raise ValueError
  | NestedList [] => Ok table
  | NestedList rows =>
      if Nat.eqb (widest rows) 2
         && (Nat.eqb (length rows) 2 || Nat.eqb (length rows) 1)
      then Ok table
      else Raise ValueError
  end.

(** Lines 104-106. *)
Definition sidebar_report (m : Metrics) (drawn : list sidebar_element)
  : result unit * list sidebar_element :=
  match model_report m with
  | Some report =>
      (Ok tt, drawn ++ [SidebarExpander "Classification Report" report])
  | None => (Ok tt, drawn)
  end.

(** Lines 90-106: the sidebar; what it returns and what it drew.  The
    accuracy is handed to the page as a number, the page formats it. *)
Definition sidebar (m : Metrics) : result unit * list sidebar_element :=
  let drawn := [SidebarTitle "About the Model"] in
  let drawn :=
    match model_accuracy m with
    | Some accuracy => drawn ++ [SidebarMetric "Test Accuracy" accuracy]
    | None => drawn
    end in
  match model_cm m with
  | Some cm =>
      let drawn := drawn ++ [SidebarText "Confusion Matrix (test data):"] in
      match confusion_frame cm with
      | Ok cm_df => sidebar_report m (drawn ++ [cm_df])
      | Raise e => (Raise e, drawn)
      end
  | None => sidebar_report m drawn
  end.

(** The script from line 18 on: load, sidebar, then the page of [app]. *)
Definition script (file : option Pickled) (session : Session) (w : world)
  : result unit * (list sidebar_element * world) :=
  match load_model file with
  | Raise e => (Raise e, ([], w))
  | Ok (saved, metrics) =>
      match sidebar metrics with
      | (Raise e, side) => (Raise e, (side, w))
      | (Ok _, side) =>
          (fst (app saved session w), (side, snd (app saved session w)))
      end
  end.

(** Streamlit runs the script again, on an empty page, at each interaction;
    the files stay.  A run that ends in an exception does not end the
    session. *)
Definition rerun (saved : Saved) (session : Session) (w : world)
  : result unit * world :=
  app saved session
    (mkWorld (history_file w) (disk_writable w) (calls w) [] (csv_number w)).

Fixpoint session_runs (saved : Saved) (interactions : list Session)
    (w : world) : world :=
  match interactions with
  | [] => w
  | session :: rest => session_runs saved rest (snd (rerun saved session w))
  end.

(** The number of rows in the ledger. *)
Definition ledger_size (w : world) : nat :=
  match history_file w with
  | Some hist => length (data hist)
  | None => 0
  end.

Definition presses (interactions : list Session) : nat :=
  length (filter clicked interactions).

(** What the sidebar draws for an entry of the bundle that is there. *)
Definition shown {A} (entry : option A) (draws : A -> list sidebar_element)
  : list sidebar_element :=
  match entry with
  | Some a => draws a
  | None => []
  end.

(** ** Derived descriptions of the form *)

Section Form.
Variable session : Session.

(** The arguments [min_value] and [value] of the field of a column. *)
Definition field_args (col : string) : option Q * Q :=
  if contains "Age" col then (Some 0%Q, 30%Q)
  else if contains "Tenure" col then (Some 0%Q, 12%Q)
  else if contains "Usage" col then (Some 0%Q, 10%Q)
  else if contains "Support" col then (Some 0%Q, 1%Q)
  else if contains "Delay" col then (Some 0%Q, 0%Q)
  else if contains "Spend" col then (Some 0%Q, 500%Q)
  else if contains "Interaction" col then (Some 0%Q, 7%Q)
  else (None, 0%Q).

Definition field_value (col : string) : Q :=
  accepted_value session col (fst (field_args col)) (snd (field_args col)).

Definition field_element (col : string) : element :=
  NumberInput col (fst (field_args col)) (snd (field_args col)).

(** A column whose name the form knows: one of the seven [in] tests holds. *)
Definition known_column (col : string) : bool :=
  contains "Age" col || contains "Tenure" col || contains "Usage" col ||
  contains "Support" col || contains "Delay" col || contains "Spend" col ||
  contains "Interaction" col.

(** What the loop leaves in [values]. *)
Definition form_values (cols : list string) (acc : dict Q) : dict Q :=
  fold_left (fun d c => Dict.set d c (field_value c)) cols acc.
End Form.

(** ** Derived description of the page *)

Definition card_of (outcome : option (Z * Q)) : element :=
  match outcome with
  | Some (pred, proba) => PredictionCard (Z.eqb pred 1) proba
  | None => Placeholder
  end.

Definition history_view (file : option DataFrame) : element :=
  match file with
  | Some hist => Dataframe hist
  | None => Text "No predictions made yet."
  end.

(** What a run draws down to the button. *)
Definition form_elements (saved : Saved) : list element :=
  Subheader "Enter customer details" ::
  map field_element (numeric_cols saved) ++ [Button "Predict Churn"].

Definition is_card (e : element) : bool :=
  match e with
  | PredictionCard _ _ => true
  | _ => false
  end.

(** ** Derived description of the ledger *)

(** The history file as [pd.read_csv] gives it, if there is one. *)
Definition read_file (w : world) : option DataFrame :=
  option_map (as_read (csv_number w)) (history_file w).

(** The table that [append] writes, given what it read. *)
Definition appended (old : option DataFrame) (row : dict Q) : DataFrame :=
  match old with
  | Some hist => concat hist (DataFrame_of_record row)
  | None => DataFrame_of_record row
  end.

(** A table as [pd.read_csv] gives it: no column name twice, every row as
    wide as the header. *)
Definition well_formed (df : DataFrame) : Prop :=
  NoDup (columns df) /\
  Forall (fun r => length r = length (columns df)) (data df).

(** A history row as the ledger stores it: every value a number cell. *)
Definition cells_of (row : dict Q) : dict cell :=
  map (fun kv => (fst kv, Num (snd kv))) row.



(** ** Derived descriptions of the pipeline *)

Section Pipeline.
Variable saved : Saved.

(** The pipeline, stage by stage: its outcome and the calls it made. *)
Definition pipeline_outcome (values : dict Q)
  : result (Z * Q) * list call :=
  match assemble saved values with
  | Raise e => (Raise e, [])
  | Ok X_num =>
    match imputer_transform (num_imputer saved) X_num with
    | Raise e => (Raise e, [CallImputer X_num])
    | Ok X_imp =>
      match scaler_transform (num_scaler saved) X_imp with
      | Raise e => (Raise e, [CallImputer X_num; CallScaler X_imp])
      | Ok X_scaled =>
        match DataFrame_of_array X_scaled (numeric_cols saved) with
        | Raise e => (Raise e, [CallImputer X_num; CallScaler X_imp])
        | Ok X_final =>
          match predict (model saved) X_final with
          | Raise e =>
              (Raise e, [CallImputer X_num; CallScaler X_imp;
                         CallPredict X_final])
          | Ok preds =>
            match index preds 0 with
            | Raise e =>
                (Raise e, [CallImputer X_num; CallScaler X_imp;
                           CallPredict X_final])
            | Ok pred =>
              ( match predict_proba (model saved) X_final with
                | Raise e => Raise e
                | Ok probas =>
                  match index probas 0 with
                  | Raise e => Raise e
                  | Ok first =>
                    match index first 1 with
                    | Raise e => Raise e
                    | Ok proba => Ok (pred, proba)
                    end
                  end
                end,
                [CallImputer X_num; CallScaler X_imp;
                 CallPredict X_final; CallPredictProba X_final] )
            end
          end
        end
      end
    end
  end.

(** What an argument handed to one of the bundle's objects must look like,
    [X_num] being the assembled row: the imputer gets [X_num] itself, the
    scaler what the imputer returned, the classifier a frame under the
    bundle's columns holding what the scaler returned. *)
Definition fed_in_order (X_num : DataFrame) (c : call) : Prop :=
  match c with
  | CallImputer X => X = X_num
  | CallScaler Y => imputer_transform (num_imputer saved) X_num = Ok Y
  | CallPredict X | CallPredictProba X =>
      columns X = numeric_cols saved /\
      exists Y, imputer_transform (num_imputer saved) X_num = Ok Y /\
                scaler_transform (num_scaler saved) Y = Ok (data X)
  end.

(** An array of one row and [n] columns. *)
Definition one_row (n : nat) (arr : ndarray) : Prop :=
  exists r, arr = [r] /\ length r = n.

Definition is_probability (p : Q) : Prop := (0 <= p)%Q /\ (p <= 1)%Q.

(** The contract of a bundle fitted on [numeric_cols] for a binary target:
    on one row under these columns the transforms return one row of the
    same width, [predict] returns one label, 0 or 1, and [predict_proba]
    one row of two probabilities. *)
Record fitted : Prop := {
  imputer_keeps_shape : forall X,
    columns X = numeric_cols saved ->
    one_row (length (numeric_cols saved)) (data X) ->
    exists Y, imputer_transform (num_imputer saved) X = Ok Y /\
              one_row (length (numeric_cols saved)) Y;
  scaler_keeps_shape : forall Y,
    one_row (length (numeric_cols saved)) Y ->
    exists Z, scaler_transform (num_scaler saved) Y = Ok Z /\
              one_row (length (numeric_cols saved)) Z;
  predict_binary : forall X,
    columns X = numeric_cols saved ->
    one_row (length (numeric_cols saved)) (data X) ->
    exists label, predict (model saved) X = Ok [label] /\
                  (label = 0 \/ label = 1)%Z;
  predict_proba_pair : forall X,
    columns X = numeric_cols saved ->
    one_row (length (numeric_cols saved)) (data X) ->
    exists p0 p1, predict_proba (model saved) X = Ok [[p0; p1]] /\
                  is_probability p0 /\ is_probability p1
}.

End Pipeline.

(** ** Scenarios *)

Module Scenario.
(** A classifier that answers churn with probability 0.82. *)
Definition churner : Classifier := {|
  predict := fun _ => Ok [1%Z];
  predict_proba := fun _ => Ok [[(18 # 100)%Q; (82 # 100)%Q]]
|}.

(** Transforms that leave the row as it is. *)
Definition identity_imputer : Imputer :=
  {| imputer_transform := fun X => Ok (data X) |}.
Definition identity_scaler : Scaler :=
  {| scaler_transform := fun X => Ok X |}.

Definition bundle : Saved := {|
  model := churner;
  num_imputer := identity_imputer;
  num_scaler := identity_scaler;
  numeric_cols := ["Age"; "Tenure"; "Usage"]
|}.

(** The user typed 45, 2 and 1 and pressed the button. *)
Definition session : Session := {|
  entered := fun label =>
    if String.eqb label "Age" then Some 45%Q
    else if String.eqb label "Tenure" then Some 2%Q
    else if String.eqb label "Usage" then Some 1%Q
    else None;
  clicked := true
|}.

(** The same values, entered into the mapping in another order. *)
Definition shuffled_values : dict Q :=
  [("Usage", 1%Q); ("Age", 45%Q); ("Tenure", 2%Q)].

Definition incomplete_values : dict Q := [("Age", 45%Q); ("Usage", 1%Q)].

(** No history file yet, on a disk that can be written. *)
Definition fresh : world := mkWorld None true [] [] (fun q => q).

(** No history file, on a disk that refuses writes. *)
Definition read_only : world := mkWorld None false [] [] (fun q => q).

(** A history file from an earlier model with two other columns. *)
Definition older : world :=
  mkWorld (Some (mkDataFrame ["Age"; "Plan"] [[Num 30%Q; Num 2%Q]]))
          true [] [] (fun q => q).

(** A bundle whose imputer rejects its input. *)
Definition broken_bundle : Saved := {|
  model := churner;
  num_imputer :=
    {| imputer_transform := fun _ => Raise (EstimatorError "shape") |};
  num_scaler := identity_scaler;
  numeric_cols := ["Age"; "Tenure"; "Usage"]
|}.

(** A bundle with a feature named like the ledger's own column. *)
Definition clashing_bundle : Saved := {|
  model := churner;
  num_imputer := identity_imputer;
  num_scaler := identity_scaler;
  numeric_cols := ["Age"; "Prediction"]
|}.

Definition clashing_session : Session := {|
  entered := fun label =>
    if String.eqb label "Prediction" then Some 3%Q else None;
  clicked := true
|}.

(** A bundle with a feature whose name the form does not know. *)
Definition balance_bundle : Saved := {|
  model := churner;
  num_imputer := identity_imputer;
  num_scaler := identity_scaler;
  numeric_cols := ["Balance"]
|}.

Definition overdrawn_session : Session := {|
  entered := fun label =>
    if String.eqb label "Balance" then Some (-5)%Q else None;
  clicked := true
|}.
End Scenario.

(** Further scenarios: model files, and bundles that break late. *)
Module Cases.
Definition pickle : Pickled := {|
  pickled_model := Some Scenario.churner;
  pickled_num_imputer := Some Scenario.identity_imputer;
  pickled_num_scaler := Some Scenario.identity_scaler;
  pickled_numeric_cols := Some ["Age"; "Tenure"; "Usage"];
  pickled_accuracy := Some (9 # 10)%Q;
  pickled_confusion_matrix := Some (NdArray [[50; 10]; [5; 35]]%Z);
  pickled_report := None
|}.

(** A model file written without the scaler and without metadata. *)
Definition pickle_without_scaler : Pickled := {|
  pickled_model := Some Scenario.churner;
  pickled_num_imputer := Some Scenario.identity_imputer;
  pickled_num_scaler := None;
  pickled_numeric_cols := None;
  pickled_accuracy := None;
  pickled_confusion_matrix := None;
  pickled_report := None
|}.

(** A model file whose metadata come from a target of three classes. *)
Definition three_class_pickle : Pickled := {|
  pickled_model := Some Scenario.churner;
  pickled_num_imputer := Some Scenario.identity_imputer;
  pickled_num_scaler := Some Scenario.identity_scaler;
  pickled_numeric_cols := Some ["Age"; "Tenure"; "Usage"];
  pickled_accuracy := Some (9 # 10)%Q;
  pickled_confusion_matrix :=
    Some (NestedList [[30; 2; 1]; [3; 30; 2]; [1; 1; 30]]%Z);
  pickled_report := Some "three classes"
|}.

(** The user typed an age and did not press the button. *)
Definition idle : Session := {|
  entered := fun label => if String.eqb label "Age" then Some 45%Q else None;
  clicked := false
|}.

(** The user pressed the button without typing anything. *)
Definition untouched : Session := {|
  entered := fun _ => None;
  clicked := true
|}.

(** A scaler that returns one column more than it was given. *)
Definition widening_bundle : Saved := {|
  model := Scenario.churner;
  num_imputer := Scenario.identity_imputer;
  num_scaler := {| scaler_transform := fun X => Ok (map (cons NaN) X) |};
  numeric_cols := ["Age"; "Tenure"; "Usage"]
|}.

(** A classifier that was fitted on one class only. *)
Definition single_class_bundle : Saved := {|
  model := {| predict := fun _ => Ok [0%Z];
              predict_proba := fun _ => Ok [[1%Q]] |};
  num_imputer := Scenario.identity_imputer;
  num_scaler := Scenario.identity_scaler;
  numeric_cols := ["Age"; "Tenure"; "Usage"]
|}.

Definition frame : DataFrame :=
  mkDataFrame ["Age"; "Tenure"; "Usage"] [[Num 45%Q; Num 2%Q; Num 1%Q]].




End Cases.

(** * Properties *)

(** ** Dictionaries *)

Section DictFacts.
Context {V : Type}.
Implicit Types (d : dict V) (k c : string) (v : V).

Lemma get_set d k v c :
  Dict.get (Dict.set d k v) c =
  if String.eqb c k then Some v else Dict.get d c.
Proof.
  induction d as [|[k' v'] d IH]; simpl.
  - reflexivity.
  - destruct (String.eqb k k') eqn:Ekk'; simpl.
    + apply String.eqb_eq in Ekk'; subst k'.
      destruct (String.eqb c k); reflexivity.
    + rewrite IH.
      destruct (String.eqb c k') eqn:Eck'; [|reflexivity].
      apply String.eqb_eq in Eck'; subst k'.
      rewrite String.eqb_sym, Ekk'. reflexivity.
Qed.

Lemma get_None_not_key d c : Dict.get d c = None <-> ~ In c (Dict.keys d).
Proof.
  induction d as [|[k v] d IH]; simpl.
  - tauto.
  - destruct (String.eqb c k) eqn:E.
    + apply String.eqb_eq in E; subst. split; [discriminate | tauto].
    + apply String.eqb_neq in E. rewrite IH. split.
      * intros Hd [Hk | Hin]; [congruence | tauto].
      * tauto.
Qed.

Lemma set_new_key d k v :
  ~ In k (Dict.keys d) -> Dict.set d k v = d ++ [(k, v)].
Proof.
  induction d as [|[k' v'] d IH]; simpl; intros Hk.
  - reflexivity.
  - destruct (String.eqb k k') eqn:E.
    + apply String.eqb_eq in E. subst. tauto.
    + rewrite IH by tauto. reflexivity.
Qed.

Lemma keys_app d1 d2 : Dict.keys (d1 ++ d2) = Dict.keys d1 ++ Dict.keys d2.
Proof. apply map_app. Qed.

Lemma values_app d1 d2 :
  Dict.values (d1 ++ d2) = Dict.values d1 ++ Dict.values d2.
Proof. apply map_app. Qed.

(** The order in which the entries went in does not change what a key
    gives, as long as no key occurs twice. *)
Lemma get_Permutation d d' c :
  NoDup (Dict.keys d) -> Permutation d d' -> Dict.get d c = Dict.get d' c.
Proof.
  intros Hnd Hp. revert Hnd.
  induction Hp as [|[k v] d d' Hp IH|[k1 v1] [k2 v2] d|d1 d2 d3 H12 IH12 H23 IH23];
    simpl; intros Hnd.
  - reflexivity.
  - inversion Hnd; subst. rewrite IH by assumption. reflexivity.
  - destruct (String.eqb c k1) eqn:E1, (String.eqb c k2) eqn:E2; try reflexivity.
    apply String.eqb_eq in E1, E2. subst.
    inversion Hnd; subst. simpl in *. tauto.
  - rewrite IH12 by assumption. apply IH23.
    unfold Dict.keys in *.
    eapply Permutation_NoDup; [|exact Hnd].
    apply Permutation_map. assumption.
Qed.
End DictFacts.

Lemma mem_In c cols : mem c cols = true <-> In c cols.
Proof.
  unfold mem. rewrite existsb_exists. split.
  - intros [x [Hin Heq]]. apply String.eqb_eq in Heq. subst. assumption.
  - intros Hin. exists c. split; [assumption | apply String.eqb_refl].
Qed.

(** ** Worlds *)

Lemma with_page_nil w : with_page w [] = w.
Proof. destruct w; unfold with_page; simpl. rewrite app_nil_r. reflexivity. Qed.

Lemma with_page_app w a b :
  with_page (with_page w a) b = with_page w (a ++ b).
Proof. unfold with_page; simpl. rewrite app_assoc. reflexivity. Qed.

Lemma with_calls_app w a b :
  with_calls (with_calls w a) b = with_calls w (a ++ b).
Proof. unfold with_calls; simpl. rewrite app_assoc. reflexivity. Qed.

(** ** The input form *)

Section FormFacts.
Variable saved : Saved.
Variable session : Session.

Lemma input_field_run col w :
  input_field session col w = (Ok (field_value session col), with_page w [field_element col]).
Proof.
  unfold input_field, field_value, field_element, field_args.
  repeat match goal with
         | |- context [if contains ?a ?b then _ else _] =>
             destruct (contains a b)
         end; reflexivity.
Qed.

Lemma input_loop_run cols : forall acc w,
  input_loop session cols acc w =
  (Ok (form_values session cols acc), with_page w (map field_element cols)).
Proof.
  induction cols as [|col cols IH]; intros acc w; simpl.
  - unfold ret. rewrite with_page_nil. reflexivity.
  - unfold bind at 1. rewrite input_field_run, IH, with_page_app.
    reflexivity.
Qed.

Lemma input_form_run w :
  input_form saved session w =
  (Ok (form_values session (numeric_cols saved) []),
   with_page w (map field_element (numeric_cols saved))).
Proof. apply input_loop_run. Qed.

Lemma get_form_values cols : forall acc c,
  Dict.get (form_values session cols acc) c =
  if mem c cols then Some (field_value session c) else Dict.get acc c.
Proof.
  induction cols as [|col cols IH]; intros acc c; simpl.
  - reflexivity.
  - unfold form_values in *. simpl. rewrite IH, get_set.
    destruct (String.eqb c col) eqn:E; simpl.
    + apply String.eqb_eq in E; subst col.
      destruct (mem c cols); reflexivity.
    + reflexivity.
Qed.

Lemma form_values_NoDup cols : forall acc,
  NoDup cols -> (forall c, In c cols -> ~ In c (Dict.keys acc)) ->
  form_values session cols acc = acc ++ map (fun c => (c, field_value session c)) cols.
Proof.
  induction cols as [|col cols IH]; intros acc Hnd Hfresh; simpl.
  - rewrite app_nil_r. reflexivity.
  - inversion Hnd as [|? ? Hnotin Hnd']; subst.
    unfold form_values in *. simpl.
    rewrite set_new_key by (apply Hfresh; left; reflexivity).
    rewrite IH.
    + rewrite <- app_assoc. reflexivity.
    + assumption.
    + intros c Hc. rewrite keys_app, in_app_iff. simpl.
      intros [Hacc | [Heq | []]].
      * apply (Hfresh c); [right|]; assumption.
      * subst. tauto.
Qed.

Lemma field_value_nonneg col :
  known_column col = true -> (0 <= field_value session col)%Q.
Proof.
  unfold known_column, field_value, field_args, accepted_value.
  intros Hknown.
  repeat match goal with
         | |- context [if contains ?a ?b then _ else _] =>
             destruct (contains a b)
         end; try discriminate; simpl;
    destruct (entered session col) as [v|]; try (vm_compute; discriminate);
    destruct (Qle_bool 0 v) eqn:E; try (vm_compute; discriminate);
    apply Qle_bool_iff; assumption.
Qed.
End FormFacts.

(** ** Assembling the feature row *)

Lemma lookup_all_present values cols :
  (forall c, In c cols -> Dict.get values c <> None) ->
  exists vs, lookup_all values cols = Ok vs /\
             Forall2 (fun c v => Dict.get values c = Some v) cols vs.
Proof.
  induction cols as [|c cols IH]; intros Hall; simpl.
  - exists []. split; [reflexivity | constructor].
  - destruct (Dict.get values c) as [v|] eqn:Ec.
    + destruct IH as [vs [Hvs Hf]].
      { intros c' Hc'. apply Hall. right. assumption. }
      rewrite Hvs. exists (v :: vs). split; [reflexivity|].
      constructor; assumption.
    + exfalso. apply (Hall c); [left; reflexivity | assumption].
Qed.

Lemma lookup_all_ext values values' cols :
  (forall c, In c cols -> Dict.get values' c = Dict.get values c) ->
  lookup_all values' cols = lookup_all values cols.
Proof.
  induction cols as [|c cols IH]; intros Hext; simpl.
  - reflexivity.
  - rewrite (Hext c) by (left; reflexivity).
    rewrite IH by (intros c' Hc'; apply Hext; right; assumption).
    reflexivity.
Qed.

(** The key error names the first column, in bundle order, that has no
    value. *)
Lemma lookup_all_missing values cols :
  (exists c, In c cols /\ Dict.get values c = None) ->
  exists before c after,
    cols = before ++ c :: after /\
    (forall c', In c' before -> Dict.get values c' <> None) /\
    Dict.get values c = None /\
    lookup_all values cols = Raise (KeyError c).
Proof.
  induction cols as [|c0 cols IH]; intros [c [Hin Hnone]].
  - destruct Hin.
  - simpl. destruct (Dict.get values c0) as [v|] eqn:E0.
    + destruct Hin as [Heq | Hin]; [subst; congruence|].
      destruct IH as [before [c1 [after [Hcols [Hbefore [Hc1 Hrun]]]]]].
      { exists c. split; assumption. }
      exists (c0 :: before), c1, after. rewrite Hrun.
      repeat split; try assumption.
      * simpl. rewrite Hcols. reflexivity.
      * intros c' [Heq | Hc']; [subst; congruence | apply Hbefore; assumption].
    + exists [], c0, cols. repeat split; try assumption.
      intros c' [].
Qed.

(** ** Running the pipeline *)

Section PipelineFacts.
Variable saved : Saved.

Lemma bind_lift {A B} (r : result A) (k : A -> M B) w :
  bind (lift r) k w =
  match r with Ok a => k a w | Raise e => (Raise e, w) end.
Proof. unfold bind, lift. destruct r; reflexivity. Qed.

Lemma call_imputer_run {B} X (k : ndarray -> M B) w :
  bind (call_imputer saved X) k w =
  match imputer_transform (num_imputer saved) X with
  | Ok Y => k Y (with_calls w [CallImputer X])
  | Raise e => (Raise e, with_calls w [CallImputer X])
  end.
Proof.
  unfold call_imputer, bind, record_call, lift.
  destruct (imputer_transform _ X); reflexivity.
Qed.

Lemma call_scaler_run {B} X (k : ndarray -> M B) w :
  bind (call_scaler saved X) k w =
  match scaler_transform (num_scaler saved) X with
  | Ok Y => k Y (with_calls w [CallScaler X])
  | Raise e => (Raise e, with_calls w [CallScaler X])
  end.
Proof.
  unfold call_scaler, bind, record_call, lift.
  destruct (scaler_transform _ X); reflexivity.
Qed.

Lemma call_predict_run {B} X (k : list Z -> M B) w :
  bind (call_predict saved X) k w =
  match predict (model saved) X with
  | Ok Y => k Y (with_calls w [CallPredict X])
  | Raise e => (Raise e, with_calls w [CallPredict X])
  end.
Proof.
  unfold call_predict, bind, record_call, lift.
  destruct (predict _ X); reflexivity.
Qed.

Lemma call_predict_proba_run {B} X (k : list (list Q) -> M B) w :
  bind (call_predict_proba saved X) k w =
  match predict_proba (model saved) X with
  | Ok Y => k Y (with_calls w [CallPredictProba X])
  | Raise e => (Raise e, with_calls w [CallPredictProba X])
  end.
Proof.
  unfold call_predict_proba, bind, record_call, lift.
  destruct (predict_proba _ X); reflexivity.
Qed.

Lemma predict_pipeline_run values w :
  predict_pipeline saved values w =
  (fst (pipeline_outcome saved values),
   with_calls w (snd (pipeline_outcome saved values))).
Proof.
  assert (Hnil : with_calls w [] = w).
  { destruct w; unfold with_calls; simpl. rewrite app_nil_r. reflexivity. }
  unfold predict_pipeline, pipeline_outcome.
  rewrite bind_lift.
  destruct (assemble saved values) as [X_num|e]; simpl; [|congruence].
  rewrite call_imputer_run.
  destruct (imputer_transform _ X_num) as [X_imp|e]; simpl; [|reflexivity].
  rewrite call_scaler_run.
  destruct (scaler_transform _ X_imp) as [X_scaled|e]; simpl;
    rewrite ?with_calls_app; simpl; [|reflexivity].
  rewrite bind_lift.
  destruct (DataFrame_of_array X_scaled _) as [X_final|e]; simpl;
    [|reflexivity].
  rewrite call_predict_run.
  destruct (predict _ X_final) as [preds|e]; simpl;
    rewrite ?with_calls_app; simpl; [|reflexivity].
  rewrite bind_lift.
  destruct (index preds 0) as [pred|e]; simpl; [|reflexivity].
  rewrite call_predict_proba_run.
  destruct (predict_proba _ X_final) as [probas|e]; simpl;
    rewrite ?with_calls_app; simpl; [|reflexivity].
  rewrite bind_lift.
  destruct (index probas 0) as [first|e]; simpl; [|reflexivity].
  rewrite bind_lift.
  destruct (index first 1) as [proba|e]; reflexivity.
Qed.
End PipelineFacts.

(** ** The feature row and the calls made with it *)

Lemma assemble_present saved values :
  (forall c, In c (numeric_cols saved) -> Dict.get values c <> None) ->
  exists vs,
    Forall2 (fun c v => Dict.get values c = Some v) (numeric_cols saved) vs /\
    assemble saved values = Ok (mkDataFrame (numeric_cols saved) [map Num vs]).
Proof.
  intros Hall. destruct (lookup_all_present _ _ Hall) as [vs [Hrun Hf]].
  exists vs. split; [assumption|]. unfold assemble. rewrite Hrun. reflexivity.
Qed.

Lemma assemble_ext saved values values' :
  (forall c, In c (numeric_cols saved) ->
             Dict.get values' c = Dict.get values c) ->
  assemble saved values' = assemble saved values.
Proof.
  intros Hext. unfold assemble. rewrite (lookup_all_ext _ _ _ Hext).
  reflexivity.
Qed.

Lemma DataFrame_of_array_Ok arr cols X :
  DataFrame_of_array arr cols = Ok X -> columns X = cols /\ data X = arr.
Proof.
  unfold DataFrame_of_array.
  destruct (forallb _ arr); [|discriminate].
  intros [= <-]. split; reflexivity.
Qed.

Lemma pipeline_calls_in_order saved values X_num :
  assemble saved values = Ok X_num ->
  exists made,
    snd (pipeline_outcome saved values) = CallImputer X_num :: made /\
    Forall (fed_in_order saved X_num) (CallImputer X_num :: made).
Proof.
  intros Hasm. unfold pipeline_outcome. rewrite Hasm.
  assert (Hlist : forall l,
    Forall (fed_in_order saved X_num) l ->
    Forall (fed_in_order saved X_num) (CallImputer X_num :: l)).
  { intros l Hl. constructor; [reflexivity | assumption]. }
  destruct (imputer_transform _ X_num) as [X_imp|e] eqn:Himp; simpl.
  2:{ exists []. split; [reflexivity|]. apply Hlist. constructor. }
  assert (Hscaler : fed_in_order saved X_num (CallScaler X_imp)) by exact Himp.
  destruct (scaler_transform _ X_imp) as [X_scaled|e] eqn:Hsc; simpl.
  2:{ eexists. split; [reflexivity|]. apply Hlist.
      constructor; [assumption | constructor]. }
  destruct (DataFrame_of_array X_scaled _) as [X_final|e] eqn:Hdf; simpl.
  2:{ eexists. split; [reflexivity|]. apply Hlist.
      constructor; [assumption | constructor]. }
  apply DataFrame_of_array_Ok in Hdf. destruct Hdf as [Hcols Hdata].
  assert (Hfinal : columns X_final = numeric_cols saved /\
                   exists Y, imputer_transform (num_imputer saved) X_num = Ok Y /\
                             scaler_transform (num_scaler saved) Y
                             = Ok (data X_final)).
  { split; [assumption|]. exists X_imp. rewrite Hdata. split; assumption. }
  assert (Hp : fed_in_order saved X_num (CallPredict X_final)) by exact Hfinal.
  assert (Hpp : fed_in_order saved X_num (CallPredictProba X_final))
    by exact Hfinal.
  destruct (predict _ X_final) as [preds|e]; simpl.
  2:{ eexists. split; [reflexivity|]. apply Hlist.
      repeat (constructor; [assumption|]). constructor. }
  destruct (index preds 0) as [pred|e]; simpl.
  2:{ eexists. split; [reflexivity|]. apply Hlist.
      repeat (constructor; [assumption|]). constructor. }
  eexists. split; [reflexivity|]. apply Hlist.
  repeat (constructor; [assumption|]). constructor.
Qed.

Lemma DataFrame_of_array_fits arr cols :
  Forall (fun r => length r = length cols) arr ->
  DataFrame_of_array arr cols = Ok (mkDataFrame cols arr).
Proof.
  intros Hfit. unfold DataFrame_of_array.
  assert (Hall : forallb (fun r => Nat.eqb (length r) (length cols)) arr
                 = true).
  { apply forallb_forall. rewrite Forall_forall in Hfit.
    intros r Hr. apply Nat.eqb_eq. apply Hfit. assumption. }
  rewrite Hall. reflexivity.
Qed.

(** After the imputer, each stage that answers hands its answer to the
    next: no stage is skipped. *)
Lemma pipeline_calls_chain saved values X_num made :
  assemble saved values = Ok X_num ->
  snd (pipeline_outcome saved values) = CallImputer X_num :: made ->
  forall X_imp,
    imputer_transform (num_imputer saved) X_num = Ok X_imp ->
    exists made1,
      made = CallScaler X_imp :: made1 /\
      forall X_scaled,
        scaler_transform (num_scaler saved) X_imp = Ok X_scaled ->
        Forall (fun r => length r = length (numeric_cols saved)) X_scaled ->
        let X_final := mkDataFrame (numeric_cols saved) X_scaled in
        exists made2,
          made1 = CallPredict X_final :: made2 /\
          forall pred preds,
            predict (model saved) X_final = Ok (pred :: preds) ->
            made2 = [CallPredictProba X_final].
Proof.
  intros Hasm Hsnd X_imp Himp. unfold pipeline_outcome in Hsnd.
  rewrite Hasm, Himp in Hsnd.
  destruct (scaler_transform _ X_imp) as [X_scaled0|e] eqn:Hsc.
  2:{ simpl in Hsnd. injection Hsnd as <-. eexists. split; [reflexivity|].
      intros X_scaled Hsc'. discriminate. }
  destruct (DataFrame_of_array X_scaled0 _) as [X_final0|e] eqn:Hdf.
  2:{ simpl in Hsnd. injection Hsnd as <-. eexists. split; [reflexivity|].
      intros X_scaled [= <-] Hfit.
      rewrite (DataFrame_of_array_fits _ _ Hfit) in Hdf. discriminate. }
  assert (HX : X_final0 = mkDataFrame (numeric_cols saved) X_scaled0).
  { apply DataFrame_of_array_Ok in Hdf. destruct X_final0, Hdf; simpl in *.
    subst. reflexivity. }
  subst X_final0.
  destruct (predict _ _) as [preds0|e] eqn:Hpred.
  2:{ simpl in Hsnd. injection Hsnd as <-. eexists. split; [reflexivity|].
      intros X_scaled [= <-] _. cbv zeta. eexists. split; [reflexivity|].
      intros pred preds Hp. rewrite Hpred in Hp. discriminate. }
  destruct (index preds0 0) as [pred0|e] eqn:Hidx.
  2:{ simpl in Hsnd. injection Hsnd as <-. eexists. split; [reflexivity|].
      intros X_scaled [= <-] _. cbv zeta. eexists. split; [reflexivity|].
      intros pred preds Hp. rewrite Hpred in Hp. injection Hp as ->.
      discriminate. }
  simpl in Hsnd. injection Hsnd as <-. eexists. split; [reflexivity|].
  intros X_scaled [= <-] _. cbv zeta. eexists. split; [reflexivity|].
  intros pred preds _. reflexivity.
Qed.

(** C1. When the input mapping has a value for every name of the bundle's
    [numeric_cols], the one-row frame handed to the imputer has exactly the
    columns [numeric_cols], in that order, with the value of each name at the
    position of that name.  When the imputer answers, the scaler is handed
    that answer; when the scaler answers with rows as wide as
    [numeric_cols], the classifier's [predict] is handed the frame under
    [numeric_cols] that holds the scaler's answer, and when [predict] gives
    a label, [predict_proba] is handed the same frame.  No other call is
    made out of this order, and none of this depends on the order in which
    the entries were put into the mapping. *)
Theorem feature_row_in_bundle_order saved values w :
  (forall c, In c (numeric_cols saved) -> Dict.get values c <> None) ->
  exists vs made,
    Forall2 (fun c v => Dict.get values c = Some v) (numeric_cols saved) vs /\
    let X_num := mkDataFrame (numeric_cols saved) [map Num vs] in
    calls (snd (predict_pipeline saved values w))
    = calls w ++ CallImputer X_num :: made /\
    Forall (fed_in_order saved X_num) (CallImputer X_num :: made) /\
    (forall X_imp,
       imputer_transform (num_imputer saved) X_num = Ok X_imp ->
       exists made1,
         made = CallScaler X_imp :: made1 /\
         forall X_scaled,
           scaler_transform (num_scaler saved) X_imp = Ok X_scaled ->
           Forall (fun r => length r = length (numeric_cols saved))
                  X_scaled ->
           let X_final := mkDataFrame (numeric_cols saved) X_scaled in
           exists made2,
             made1 = CallPredict X_final :: made2 /\
             forall pred preds,
               predict (model saved) X_final = Ok (pred :: preds) ->
               made2 = [CallPredictProba X_final]) /\
    forall values',
      NoDup (Dict.keys values) -> Permutation values values' ->
      predict_pipeline saved values' w = predict_pipeline saved values w.
Proof.
  intros Hall.
  destruct (assemble_present saved values Hall) as [vs [Hf Hasm]].
  destruct (pipeline_calls_in_order saved values _ Hasm) as [made [Hmade Hord]].
  exists vs, made. split; [assumption|]. cbv zeta.
  split; [rewrite predict_pipeline_run; simpl; rewrite Hmade; reflexivity|].
  split; [assumption|].
  split; [exact (pipeline_calls_chain saved values _ made Hasm Hmade)|].
  intros values' Hnd Hperm.
  rewrite !predict_pipeline_run.
  assert (Hsame : pipeline_outcome saved values' = pipeline_outcome saved values).
  { unfold pipeline_outcome. rewrite (assemble_ext saved values values').
    - reflexivity.
    - intros c _. symmetry. apply get_Permutation; assumption. }
  rewrite Hsame. reflexivity.
Qed.

(** ** Saving, and the button handler *)

Lemma append_run row w :
  append row w =
  if disk_writable w
  then (Ok tt, with_history w (appended (read_file w) row))
  else (Raise OSError, w).
Proof.
  unfold append, bind, os_path_exists, pd_read_csv, ret, to_csv, appended,
    read_file.
  destruct (history_file w) as [hist|] eqn:Hfile; simpl; rewrite ?Hfile;
    destruct (disk_writable w); reflexivity.
Qed.

Lemma save_history_run values pred proba w :
  save_history values pred proba w =
  if disk_writable w
  then (Ok tt,
        with_page
          (with_history w
             (appended (read_file w) (history_row values pred proba)))
          [Info "Prediction saved to history"])
  else (Raise OSError, w).
Proof.
  unfold save_history, bind. rewrite append_run.
  destruct (disk_writable w); reflexivity.
Qed.

Lemma on_predict_run saved values w :
  on_predict saved values w =
  let made := with_calls w (snd (pipeline_outcome saved values)) in
  match fst (pipeline_outcome saved values) with
  | Raise e => (Raise e, made)
  | Ok r =>
      if disk_writable w
      then (Ok r,
            with_page
              (with_history made
                 (appended (read_file w)
                    (history_row values (fst r) (snd r))))
              [Info "Prediction saved to history"])
      else (Raise OSError, made)
  end.
Proof.
  unfold on_predict. unfold bind at 1. rewrite predict_pipeline_run.
  destruct (fst (pipeline_outcome saved values)) as [r|e]; [|reflexivity].
  unfold bind. rewrite save_history_run. simpl.
  destruct (disk_writable w); reflexivity.
Qed.

(** The outcome of the pipeline does not depend on the world it runs in. *)
Lemma predict_pipeline_outcome saved values w :
  fst (predict_pipeline saved values w) = fst (pipeline_outcome saved values).
Proof. rewrite predict_pipeline_run. reflexivity. Qed.

(** C8. When the input mapping has no value for some name of
    [numeric_cols], assembling the feature row raises a key error that names
    a column of [numeric_cols] that has no value (the first such column); the
    attempt ends there, with no call made and nothing written. *)
Theorem missing_feature_named saved values :
  (exists c, In c (numeric_cols saved) /\ Dict.get values c = None) ->
  exists c,
    In c (numeric_cols saved) /\ Dict.get values c = None /\
    assemble saved values = Raise (KeyError c) /\
    forall w, on_predict saved values w = (Raise (KeyError c), w).
Proof.
  intros Hmiss.
  destruct (lookup_all_missing _ _ Hmiss)
    as [before [c [after [Hcols [_ [Hnone Hrun]]]]]].
  assert (Hasm : assemble saved values = Raise (KeyError c)).
  { unfold assemble. rewrite Hrun. reflexivity. }
  exists c. split; [rewrite Hcols, in_app_iff; right; left; reflexivity|].
  split; [assumption|]. split; [assumption|].
  intros w. rewrite on_predict_run. unfold pipeline_outcome. rewrite Hasm.
  simpl. destruct w; unfold with_calls; simpl. rewrite app_nil_r. reflexivity.
Qed.

(** C4. When the imputer's transform, the scaler's transform or a call of
    the classifier ([predict], or [predict_proba] after it) raises, the
    attempt ends with that exception: the history file is what it was, and
    nothing was drawn. *)
Theorem failed_inference_writes_nothing saved values X_num e w :
  assemble saved values = Ok X_num ->
  imputer_transform (num_imputer saved) X_num = Raise e \/
  (exists X_imp,
      imputer_transform (num_imputer saved) X_num = Ok X_imp /\
      scaler_transform (num_scaler saved) X_imp = Raise e) \/
  (exists X_imp X_scaled X_final,
      imputer_transform (num_imputer saved) X_num = Ok X_imp /\
      scaler_transform (num_scaler saved) X_imp = Ok X_scaled /\
      DataFrame_of_array X_scaled (numeric_cols saved) = Ok X_final /\
      (predict (model saved) X_final = Raise e \/
       exists pred preds,
         predict (model saved) X_final = Ok (pred :: preds) /\
         predict_proba (model saved) X_final = Raise e)) ->
  exists w',
    on_predict saved values w = (Raise e, w') /\
    history_file w' = history_file w /\
    disk_writable w' = disk_writable w /\
    page w' = page w.
Proof.
  intros Hasm Hfail. rewrite on_predict_run. unfold pipeline_outcome.
  rewrite Hasm.
  destruct Hfail as [Himp | [[X_imp [Himp Hsc]]
                            | [X_imp [X_scaled [X_final [Himp [Hsc [Hdf Hp]]]]]]]].
  - rewrite Himp. simpl. eexists. repeat split.
  - rewrite Himp, Hsc. simpl. eexists. repeat split.
  - rewrite Himp, Hsc, Hdf.
    destruct Hp as [Hp | [pred [preds [Hp Hpp]]]].
    + rewrite Hp. simpl. eexists. repeat split.
    + rewrite Hp. simpl. rewrite Hpp. simpl. eexists. repeat split.
Qed.

(** ** The outcome of a fitted bundle *)

Lemma DataFrame_of_one_row n row cols :
  length cols = n -> one_row n row ->
  DataFrame_of_array row cols = Ok (mkDataFrame cols row).
Proof.
  intros Hn [r [-> Hr]]. unfold DataFrame_of_array. simpl.
  rewrite Hr, <- Hn, Nat.eqb_refl. reflexivity.
Qed.




(** ** The ledger *)

Lemma read_all_run w :
  read_all w =
  (Ok match read_file w with
      | Some hist => records hist
      | None => []
      end, w).
Proof.
  unfold read_all, bind, os_path_exists, pd_read_csv, ret, read_file.
  destruct (history_file w) as [hist|] eqn:Hfile; simpl; rewrite ?Hfile;
    reflexivity.
Qed.

Lemma get_combine cols : forall (r : list cell) c,
  Dict.get (combine cols r) c = cell_at cols r c.
Proof.
  induction cols as [|k cols IH]; intros [|x r] c; simpl; try reflexivity.
  rewrite IH. reflexivity.
Qed.

Lemma cell_at_map (f : string -> cell) cols c :
  In c cols -> cell_at cols (map f cols) c = Some (f c).
Proof.
  induction cols as [|k cols IH]; simpl; intros Hc; [tauto|].
  destruct (String.eqb c k) eqn:E.
  - apply String.eqb_eq in E. subst. reflexivity.
  - apply String.eqb_neq in E. apply IH.
    destruct Hc as [Hk | Hc]; [congruence | assumption].
Qed.

Lemma cell_at_reindex cols cols' r c :
  cell_at cols' (reindex cols cols' r) c =
  if mem c cols'
  then Some match cell_at cols r c with Some x => x | None => NaN end
  else None.
Proof.
  unfold reindex. induction cols' as [|k cols' IH]; simpl.
  - reflexivity.
  - destruct (String.eqb c k) eqn:E; simpl.
    + apply String.eqb_eq in E. subst. reflexivity.
    + exact IH.
Qed.

Lemma cell_at_record (row : dict Q) c :
  cell_at (Dict.keys row) (map Num (Dict.values row)) c =
  Dict.get (cells_of row) c.
Proof.
  induction row as [|[k v] row IH]; simpl.
  - reflexivity.
  - rewrite IH. reflexivity.
Qed.




Lemma concat_columns_cover hist (row : dict Q) c :
  In c (Dict.keys row) ->
  In c (columns (concat hist (DataFrame_of_record row))).
Proof.
  intros Hc. simpl. apply in_app_iff.
  destruct (mem c (columns hist)) eqn:E.
  - left. apply mem_In. assumption.
  - right. apply filter_In. split; [assumption|]. rewrite E. reflexivity.
Qed.



(** *** Reading back *)

Lemma header_as_read_named names : forall i,
  ~ In "" names -> header_as_read i names = names.
Proof.
  induction names as [|name names IH]; intros i Hnamed; simpl.
  - reflexivity.
  - destruct (String.eqb name "") eqn:E.
    + apply String.eqb_eq in E. subst. simpl in Hnamed. tauto.
    + rewrite IH by (simpl in Hnamed; tauto). reflexivity.
Qed.

Lemma cell_at_as_read number cols : forall r c,
  cell_at cols (map (cell_as_read number) r) c
  = option_map (cell_as_read number) (cell_at cols r c).
Proof.
  induction cols as [|k cols IH]; intros [|x r] c; simpl; try reflexivity.
  destruct (String.eqb c k); [reflexivity | apply IH].
Qed.








(** ** The whole script *)

Lemma finish_run outcome w :
  bind (prediction_card outcome) (fun _ => history_section) w =
  (Ok tt,
   with_page w [Subheader "Prediction"; card_of outcome;
                Subheader "Prediction History";
                history_view (read_file w)]).
Proof.
  unfold prediction_card, history_section, st_subheader, st_dataframe,
    st_write, bind, draw, os_path_exists, pd_read_csv, card_of, history_view,
    read_file.
  unfold with_page. destruct w as [file disk made drawn number].
  destruct outcome as [[pred proba]|]; destruct file as [hist|]; simpl;
    rewrite <- ?app_assoc; reflexivity.
Qed.

Lemma app_run saved session w :
  app saved session w =
  let w1 := with_page w (form_elements saved) in
  let values := form_values session (numeric_cols saved) [] in
  if clicked session
  then match on_predict saved values w1 with
       | (Ok r, w2) =>
           (Ok tt,
            with_page w2 [Subheader "Prediction"; card_of (Some r);
                          Subheader "Prediction History";
                          history_view (read_file w2)])
       | (Raise e, w2) => (Raise e, w2)
       end
  else (Ok tt,
        with_page w1 [Subheader "Prediction"; card_of None;
                      Subheader "Prediction History";
                      history_view (read_file w1)]).
Proof.
  unfold app.
  unfold bind at 1. unfold st_subheader at 1, draw at 1.
  unfold bind at 1. rewrite input_form_run, with_page_app.
  unfold bind at 1. unfold st_button at 1, bind at 1, draw at 1, ret at 1.
  rewrite with_page_app. change (?a :: ?l ++ [?b]) with ((a :: l) ++ [b]).
  unfold form_elements. cbv zeta.
  unfold bind at 1.
  destruct (clicked session).
  - unfold bind at 1.
    destruct (on_predict saved _ _) as [[r|e] w2]; [|reflexivity].
    unfold ret at 1. apply finish_run.
  - unfold ret at 1. apply finish_run.
Qed.

(** ** Two predictions in a row *)

Lemma header_as_read_no_empty names : forall i,
  ~ In "" (header_as_read i names).
Proof.
  induction names as [|name names IH]; intros i; simpl; [tauto|].
  intros [Hhead | Htail]; [|exact (IH _ Htail)].
  destruct (String.eqb name "") eqn:E.
  - simpl in Hhead. discriminate.
  - apply String.eqb_neq in E. congruence.
Qed.

Lemma read_file_named w hist :
  read_file w = Some hist -> ~ In "" (columns hist).
Proof.
  unfold read_file. destruct (history_file w) as [stored|]; [|discriminate].
  intros [= <-]. apply header_as_read_no_empty.
Qed.

Lemma keys_set_In {V} (d : dict V) k v c :
  In c (Dict.keys (Dict.set d k v)) -> In c (Dict.keys d) \/ c = k.
Proof.
  induction d as [|[k' v'] d IH]; simpl.
  - intros [<- | []]. right. reflexivity.
  - destruct (String.eqb k k'); simpl.
    + tauto.
    + intros [<- | Hin]; [tauto|]. destruct (IH Hin); tauto.
Qed.

Lemma history_row_named values pred proba :
  ~ In "" (Dict.keys values) ->
  ~ In "" (Dict.keys (history_row values pred proba)).
Proof.
  intros Hnamed Hin. unfold history_row, Dict.copy in Hin.
  apply keys_set_In in Hin. destruct Hin as [Hin | Heq]; [|discriminate].
  apply keys_set_In in Hin. destruct Hin as [Hin | Heq]; [tauto | discriminate].
Qed.

Lemma get_cells_of row c :
  Dict.get (cells_of row) c = option_map Num (Dict.get row c).
Proof.
  induction row as [|[k v] row IH]; simpl.
  - reflexivity.
  - destruct (String.eqb c k); [reflexivity | exact IH].
Qed.


Lemma appended_header_named old row :
  (forall hist, old = Some hist -> ~ In "" (columns hist)) ->
  ~ In "" (Dict.keys row) ->
  ~ In "" (columns (appended old row)).
Proof.
  intros Hold Hrow. destruct old as [hist|]; simpl.
  - rewrite in_app_iff, filter_In. specialize (Hold hist eq_refl). tauto.
  - assumption.
Qed.







(** ** Reading a ledger that is not there *)

(** C6. When the history file does not exist, reading the ledger gives the
    empty sequence and raises nothing, and the history section of the page
    shows the note instead of a table, without reading the file. *)
Theorem read_of_missing_store w :
  history_file w = None ->
  read_all w = (Ok [], w) /\
  history_section w =
  (Ok tt, with_page w [Subheader "Prediction History";
                       Text "No predictions made yet."]).
Proof.
  intros Hfile. split.
  - rewrite read_all_run. unfold read_file. rewrite Hfile. reflexivity.
  - unfold history_section, st_subheader, st_write, bind, draw,
      os_path_exists. simpl. rewrite Hfile.
    rewrite with_page_app. reflexivity.
Qed.

(** ** A write that fails *)

Lemma is_card_form_elements saved :
  existsb is_card (form_elements saved) = false.
Proof.
  unfold form_elements. simpl. rewrite existsb_app. simpl.
  rewrite orb_false_r.
  induction (numeric_cols saved) as [|c cols IH]; simpl;
    [reflexivity | exact IH].
Qed.

(** C5, as the script has it.  When the pipeline succeeds but the history
    file cannot be written, the error of the write is not caught: it ends
    the run of the script right after the button, so the prediction card is
    not drawn. *)
Theorem failed_write_ends_run saved session w values r :
  clicked session = true ->
  disk_writable w = false ->
  fst (input_form saved session w) = Ok values ->
  fst (predict_pipeline saved values w) = Ok r ->
  exists w',
    app saved session w = (Raise OSError, w') /\
    page w' = page w ++ form_elements saved /\
    existsb is_card (form_elements saved) = false.
Proof.
  intros Hclick Hdisk Hform Hpipe.
  rewrite input_form_run in Hform. simpl in Hform. injection Hform as <-.
  rewrite predict_pipeline_outcome in Hpipe.
  rewrite app_run, Hclick. cbv zeta.
  rewrite on_predict_run, Hpipe. simpl. rewrite Hdisk.
  eexists. split; [reflexivity|]. split; [reflexivity|].
  apply is_card_form_elements.
Qed.

(** C5 fails as stated: the classifier answers, the write is refused, and
    the run ends with the error before the prediction card is drawn. *)
Lemma failed_write_hides_prediction :
  fst (predict_pipeline Scenario.bundle
         (form_values Scenario.session (numeric_cols Scenario.bundle) [])
         Scenario.read_only) = Ok (1%Z, (82 # 100)%Q) /\
  fst (app Scenario.bundle Scenario.session Scenario.read_only)
  = Raise OSError /\
  page (snd (app Scenario.bundle Scenario.session Scenario.read_only))
  = [Subheader "Enter customer details";
     NumberInput "Age" (Some 0%Q) 30%Q;
     NumberInput "Tenure" (Some 0%Q) 12%Q;
     NumberInput "Usage" (Some 0%Q) 10%Q;
     Button "Predict Churn"] /\
  ~ In (PredictionCard true (82 # 100)%Q)
       (page (snd (app Scenario.bundle Scenario.session Scenario.read_only))).
Proof.
  split; [reflexivity|]. split; [reflexivity|]. split; [reflexivity|].
  vm_compute. intros H.
  repeat (destruct H as [H | H]; [discriminate H|]). exact H.
Qed.

(** ** The first prediction *)

Lemma lookup_all_map values (f : string -> Q) cols :
  (forall c, In c cols -> Dict.get values c = Some (f c)) ->
  lookup_all values cols = Ok (map f cols).
Proof.
  induction cols as [|c cols IH]; intros Hget; simpl.
  - reflexivity.
  - rewrite (Hget c) by (left; reflexivity).
    rewrite IH by (intros c' Hc'; apply Hget; right; assumption).
    reflexivity.
Qed.

Lemma get_form_value session cols c :
  In c cols ->
  Dict.get (form_values session cols []) c = Some (field_value session c).
Proof.
  intros Hc. rewrite get_form_values.
  apply mem_In in Hc. rewrite Hc. reflexivity.
Qed.

Lemma assemble_form_values saved session :
  assemble saved (form_values session (numeric_cols saved) []) =
  Ok (mkDataFrame (numeric_cols saved)
        [map Num (map (field_value session) (numeric_cols saved))]).
Proof.
  unfold assemble.
  rewrite (lookup_all_map _ (field_value session)).
  - reflexivity.
  - intros c Hc. apply get_form_value. assumption.
Qed.

(** C7, as the script has it.  When no feature name occurs twice in
    [numeric_cols] and none is [Prediction] or [Churn_Probability], and the
    history file does not exist, a successful prediction creates it with the
    header [numeric_cols] followed by [Prediction] and [Churn_Probability]
    and one row: the values entered, as the imputer was handed them, then
    the label and the probability. *)
Theorem first_prediction_creates_store saved session w values pred proba :
  NoDup (numeric_cols saved) ->
  ~ In "Prediction" (numeric_cols saved) ->
  ~ In "Churn_Probability" (numeric_cols saved) ->
  history_file w = None ->
  disk_writable w = true ->
  clicked session = true ->
  fst (input_form saved session w) = Ok values ->
  fst (predict_pipeline saved values w) = Ok (pred, proba) ->
  exists w',
    app saved session w = (Ok tt, w') /\
    assemble saved values
    = Ok (mkDataFrame (numeric_cols saved) [map Num (Dict.values values)]) /\
    history_file w'
    = Some (mkDataFrame
              (numeric_cols saved ++ ["Prediction"; "Churn_Probability"])
              [map Num (Dict.values values)
               ++ [Num (inject_Z pred); Num proba]]).
Proof.
  intros Hnd Hpred Hproba Hfile Hdisk Hclick Hform Hpipe.
  rewrite input_form_run in Hform. simpl in Hform. injection Hform as <-.
  rewrite predict_pipeline_outcome in Hpipe.
  pose proof (assemble_form_values saved session) as Hasm.
  set (values := form_values session (numeric_cols saved) []) in *.
  assert (Hvalues : values
                    = map (fun c => (c, field_value session c))
                          (numeric_cols saved)).
  { unfold values. rewrite form_values_NoDup; [reflexivity | assumption|].
    intros c _ []. }
  assert (Hkeys : Dict.keys values = numeric_cols saved).
  { rewrite Hvalues. unfold Dict.keys. rewrite map_map. apply map_id. }
  assert (Hvals : Dict.values values
                  = map (field_value session) (numeric_cols saved)).
  { rewrite Hvalues. unfold Dict.values. rewrite map_map. reflexivity. }
  assert (Hrow : history_row values pred proba
                 = values ++ [("Prediction", inject_Z pred);
                              ("Churn_Probability", proba)]).
  { unfold history_row, Dict.copy.
    rewrite (set_new_key values) by (rewrite Hkeys; assumption).
    rewrite set_new_key.
    - rewrite <- app_assoc. reflexivity.
    - rewrite keys_app, Hkeys, in_app_iff. simpl.
      intros [Hin | [Heq | []]]; [tauto | discriminate]. }
  rewrite app_run, Hclick. cbv zeta. fold values.
  rewrite on_predict_run, Hpipe. simpl. unfold read_file. simpl.
  rewrite Hdisk, Hfile. simpl.
  eexists. split; [reflexivity|].
  split; [rewrite Hvals; exact Hasm|].
  simpl. rewrite Hrow. unfold DataFrame_of_record.
  rewrite keys_app, values_app, map_app, Hkeys. reflexivity.
Qed.

(** C7 fails as stated: with a feature named [Prediction] the header is not
    the feature names followed by the two ledger columns, and the row holds
    the label where the value entered for that feature (3) should be. *)
Lemma reserved_feature_name_overwritten :
  app Scenario.clashing_bundle Scenario.clashing_session Scenario.fresh
  = (Ok tt,
     snd (app Scenario.clashing_bundle Scenario.clashing_session
              Scenario.fresh)) /\
  form_values Scenario.clashing_session
    (numeric_cols Scenario.clashing_bundle) []
  = [("Age", 30%Q); ("Prediction", 3%Q)] /\
  history_file
    (snd (app Scenario.clashing_bundle Scenario.clashing_session
              Scenario.fresh))
  = Some (mkDataFrame ["Age"; "Prediction"; "Churn_Probability"]
            [[Num 30%Q; Num 1%Q; Num (82 # 100)%Q]]) /\
  ["Age"; "Prediction"; "Churn_Probability"]
  <> numeric_cols Scenario.clashing_bundle
     ++ ["Prediction"; "Churn_Probability"].
Proof.
  split; [reflexivity|]. split; [reflexivity|]. split; [reflexivity|].
  discriminate.
Qed.

(** ** The minimum of the input fields *)

Lemma known_column_min col :
  known_column col = true -> fst (field_args col) = Some 0%Q.
Proof.
  unfold known_column, field_args.
  repeat match goal with
         | |- context [if contains ?a ?b then _ else _] =>
             destruct (contains a b)
         end; simpl; try reflexivity; discriminate.
Qed.

Lemma unknown_column_no_min col :
  known_column col = false -> field_args col = (None, 0%Q).
Proof.
  unfold known_column, field_args.
  repeat match goal with
         | |- context [if contains ?a ?b then _ else _] =>
             destruct (contains a b)
         end; simpl; try reflexivity; discriminate.
Qed.

(** C9, as the script has it.  The form draws one field per name of
    [numeric_cols] and the values it collects are the row the imputer is
    handed.  For a name that contains one of [Age], [Tenure], [Usage],
    [Support], [Delay], [Spend], [Interaction] the field has the minimum 0
    and the value is not negative; for any other name the field has no
    minimum. *)
Theorem known_fields_not_negative saved session w values w' :
  input_form saved session w = (Ok values, w') ->
  exists vs,
    assemble saved values
    = Ok (mkDataFrame (numeric_cols saved) [map Num vs]) /\
    Forall2 (fun c v =>
               Dict.get values c = Some v /\
               In (field_element c) (page w') /\
               (known_column c = true ->
                fst (field_args c) = Some 0%Q /\ (0 <= v)%Q) /\
               (known_column c = false -> fst (field_args c) = None))
            (numeric_cols saved) vs.
Proof.
  rewrite input_form_run. intros [= <- <-].
  exists (map (field_value session) (numeric_cols saved)).
  split; [apply assemble_form_values|].
  assert (Hall : forall cols,
    (forall c, In c cols -> In c (numeric_cols saved)) ->
    Forall2 (fun c v =>
               Dict.get (form_values session (numeric_cols saved) []) c
               = Some v /\
               In (field_element c)
                  (page (with_page w (map field_element (numeric_cols saved))))
               /\
               (known_column c = true ->
                fst (field_args c) = Some 0%Q /\ (0 <= v)%Q) /\
               (known_column c = false -> fst (field_args c) = None))
            cols (map (field_value session) cols)).
  { induction cols as [|c cols IH]; intros Hsub; simpl; constructor.
    - split; [apply get_form_value, Hsub; left; reflexivity|].
      split.
      { simpl. apply in_app_iff. right. apply in_map, Hsub. left.
        reflexivity. }
      split.
      + intros Hknown. split; [apply known_column_min; assumption|].
        apply field_value_nonneg. assumption.
      + intros Hunknown. rewrite unknown_column_no_min by assumption.
        reflexivity.
    - apply IH. intros c' Hc'. apply Hsub. right. assumption. }
  apply Hall. tauto.
Qed.

(** C9 fails as stated: a feature whose name the form does not know gets a
    field without a minimum, and the negative number typed into it is
    handed to the imputer. *)
Lemma unknown_field_takes_negative :
  input_form Scenario.balance_bundle Scenario.overdrawn_session Scenario.fresh
  = (Ok [("Balance", (-5)%Q)],
     with_page Scenario.fresh [NumberInput "Balance" None 0%Q]) /\
  assemble Scenario.balance_bundle [("Balance", (-5)%Q)]
  = Ok (mkDataFrame ["Balance"] [[Num (-5)%Q]]) /\
  calls (snd (app Scenario.balance_bundle Scenario.overdrawn_session
                  Scenario.fresh))
  = [CallImputer (mkDataFrame ["Balance"] [[Num (-5)%Q]]);
     CallScaler [[Num (-5)%Q]];
     CallPredict (mkDataFrame ["Balance"] [[Num (-5)%Q]]);
     CallPredictProba (mkDataFrame ["Balance"] [[Num (-5)%Q]])] /\
  ~ (0 <= -5)%Q.
Proof.
  split; [reflexivity|]. split; [reflexivity|]. split; [reflexivity|].
  intros H. apply Qle_bool_iff in H. discriminate H.
Qed.

(** ** The scenarios, run *)

Lemma scenario_fitted : fitted Scenario.bundle.
Proof.
  constructor; simpl.
  - intros X _ Hrow. exists (data X). split; [reflexivity | assumption].
  - intros Y Hrow. exists Y. split; [reflexivity | assumption].
  - intros X _ _. exists 1%Z. split; [reflexivity | right; reflexivity].
  - intros X _ _. exists (18 # 100)%Q, (82 # 100)%Q.
    split; [reflexivity|].
    unfold is_probability, Qle; simpl. lia.
Qed.

Lemma feature_row_in_bundle_order_witness :
  (forall c, In c (numeric_cols Scenario.bundle) ->
             Dict.get Scenario.shuffled_values c <> None) /\
  exists vs made,
    Forall2 (fun c v => Dict.get Scenario.shuffled_values c = Some v)
            (numeric_cols Scenario.bundle) vs /\
    let X_num := mkDataFrame (numeric_cols Scenario.bundle) [map Num vs] in
    calls (snd (predict_pipeline Scenario.bundle Scenario.shuffled_values
                  Scenario.fresh))
    = calls Scenario.fresh ++ CallImputer X_num :: made /\
    Forall (fed_in_order Scenario.bundle X_num) (CallImputer X_num :: made) /\
    (forall X_imp,
       imputer_transform (num_imputer Scenario.bundle) X_num = Ok X_imp ->
       exists made1,
         made = CallScaler X_imp :: made1 /\
         forall X_scaled,
           scaler_transform (num_scaler Scenario.bundle) X_imp
           = Ok X_scaled ->
           Forall (fun r => length r = length (numeric_cols Scenario.bundle))
                  X_scaled ->
           let X_final :=
             mkDataFrame (numeric_cols Scenario.bundle) X_scaled in
           exists made2,
             made1 = CallPredict X_final :: made2 /\
             forall pred preds,
               predict (model Scenario.bundle) X_final = Ok (pred :: preds) ->
               made2 = [CallPredictProba X_final]) /\
    forall values',
      NoDup (Dict.keys Scenario.shuffled_values) ->
      Permutation Scenario.shuffled_values values' ->
      predict_pipeline Scenario.bundle values' Scenario.fresh
      = predict_pipeline Scenario.bundle Scenario.shuffled_values
          Scenario.fresh.
Proof.
  assert (Hall : forall c, In c (numeric_cols Scenario.bundle) ->
                           Dict.get Scenario.shuffled_values c <> None).
  { simpl. intros c [<- | [<- | [<- | []]]]; discriminate. }
  split; [exact Hall|].
  exact (feature_row_in_bundle_order Scenario.bundle Scenario.shuffled_values
           Scenario.fresh Hall).
Defined.





Lemma failed_inference_writes_nothing_witness :
  assemble Scenario.broken_bundle Scenario.shuffled_values
  = Ok (mkDataFrame ["Age"; "Tenure"; "Usage"] [[Num 45%Q; Num 2%Q; Num 1%Q]])
  /\
  imputer_transform (num_imputer Scenario.broken_bundle)
    (mkDataFrame ["Age"; "Tenure"; "Usage"] [[Num 45%Q; Num 2%Q; Num 1%Q]])
  = Raise (EstimatorError "shape") /\
  exists w',
    on_predict Scenario.broken_bundle Scenario.shuffled_values Scenario.older
    = (Raise (EstimatorError "shape"), w') /\
    history_file w' = history_file Scenario.older /\
    disk_writable w' = disk_writable Scenario.older /\
    page w' = page Scenario.older.
Proof.
  split; [reflexivity|]. split; [reflexivity|].
  apply (failed_inference_writes_nothing Scenario.broken_bundle
           Scenario.shuffled_values
           (mkDataFrame ["Age"; "Tenure"; "Usage"]
              [[Num 45%Q; Num 2%Q; Num 1%Q]])
           (EstimatorError "shape") Scenario.older).
  - reflexivity.
  - left. reflexivity.
Defined.

Lemma failed_write_ends_run_witness :
  clicked Scenario.session = true /\
  disk_writable Scenario.read_only = false /\
  exists w',
    app Scenario.bundle Scenario.session Scenario.read_only
    = (Raise OSError, w') /\
    page w' = page Scenario.read_only ++ form_elements Scenario.bundle /\
    existsb is_card (form_elements Scenario.bundle) = false.
Proof.
  split; [reflexivity|]. split; [reflexivity|].
  apply (failed_write_ends_run Scenario.bundle Scenario.session
           Scenario.read_only
           [("Age", 45%Q); ("Tenure", 2%Q); ("Usage", 1%Q)]
           (1%Z, (82 # 100)%Q)); reflexivity.
Defined.

Lemma read_of_missing_store_witness :
  history_file Scenario.fresh = None /\
  read_all Scenario.fresh = (Ok [], Scenario.fresh) /\
  history_section Scenario.fresh =
  (Ok tt, with_page Scenario.fresh [Subheader "Prediction History";
                                    Text "No predictions made yet."]).
Proof.
  split; [reflexivity|].
  exact (read_of_missing_store Scenario.fresh eq_refl).
Defined.

Lemma scenario_columns_distinct : NoDup (numeric_cols Scenario.bundle).
Proof.
  simpl. repeat constructor; simpl; intuition discriminate.
Qed.

Lemma first_prediction_creates_store_witness :
  NoDup (numeric_cols Scenario.bundle) /\
  exists w',
    app Scenario.bundle Scenario.session Scenario.fresh = (Ok tt, w') /\
    assemble Scenario.bundle [("Age", 45%Q); ("Tenure", 2%Q); ("Usage", 1%Q)]
    = Ok (mkDataFrame (numeric_cols Scenario.bundle)
            [map Num (Dict.values
                        [("Age", 45%Q); ("Tenure", 2%Q); ("Usage", 1%Q)])]) /\
    history_file w'
    = Some (mkDataFrame
              (numeric_cols Scenario.bundle
               ++ ["Prediction"; "Churn_Probability"])
              [map Num (Dict.values
                          [("Age", 45%Q); ("Tenure", 2%Q); ("Usage", 1%Q)])
               ++ [Num (inject_Z 1); Num (82 # 100)%Q]]).
Proof.
  split; [exact scenario_columns_distinct|].
  apply (first_prediction_creates_store Scenario.bundle Scenario.session
           Scenario.fresh
           [("Age", 45%Q); ("Tenure", 2%Q); ("Usage", 1%Q)]
           1%Z (82 # 100)%Q).
  - exact scenario_columns_distinct.
  - simpl. intuition discriminate.
  - simpl. intuition discriminate.
  - reflexivity.
  - reflexivity.
  - reflexivity.
  - reflexivity.
  - reflexivity.
Defined.

Lemma missing_feature_named_witness :
  (exists c, In c (numeric_cols Scenario.bundle) /\
             Dict.get Scenario.incomplete_values c = None) /\
  exists c,
    In c (numeric_cols Scenario.bundle) /\
    Dict.get Scenario.incomplete_values c = None /\
    assemble Scenario.bundle Scenario.incomplete_values
    = Raise (KeyError c) /\
    forall w, on_predict Scenario.bundle Scenario.incomplete_values w
              = (Raise (KeyError c), w).
Proof.
  assert (Hmiss : exists c, In c (numeric_cols Scenario.bundle) /\
                            Dict.get Scenario.incomplete_values c = None).
  { exists "Tenure". split; [simpl; tauto | reflexivity]. }
  split; [exact Hmiss|].
  exact (missing_feature_named Scenario.bundle Scenario.incomplete_values
           Hmiss).
Defined.

Lemma known_fields_not_negative_witness :
  input_form Scenario.bundle Scenario.session Scenario.fresh
  = (Ok [("Age", 45%Q); ("Tenure", 2%Q); ("Usage", 1%Q)],
     with_page Scenario.fresh
       [NumberInput "Age" (Some 0%Q) 30%Q;
        NumberInput "Tenure" (Some 0%Q) 12%Q;
        NumberInput "Usage" (Some 0%Q) 10%Q]) /\
  exists vs,
    assemble Scenario.bundle [("Age", 45%Q); ("Tenure", 2%Q); ("Usage", 1%Q)]
    = Ok (mkDataFrame (numeric_cols Scenario.bundle) [map Num vs]) /\
    Forall2 (fun c v =>
               Dict.get [("Age", 45%Q); ("Tenure", 2%Q); ("Usage", 1%Q)] c
               = Some v /\
               In (field_element c)
                  (page (with_page Scenario.fresh
                           [NumberInput "Age" (Some 0%Q) 30%Q;
                            NumberInput "Tenure" (Some 0%Q) 12%Q;
                            NumberInput "Usage" (Some 0%Q) 10%Q])) /\
               (known_column c = true ->
                fst (field_args c) = Some 0%Q /\ (0 <= v)%Q) /\
               (known_column c = false -> fst (field_args c) = None))
            (numeric_cols Scenario.bundle) vs.
Proof.
  split; [reflexivity|].
  apply (known_fields_not_negative Scenario.bundle Scenario.session
           Scenario.fresh).
  reflexivity.
Defined.



(** * Further properties of the script *)

(** ** Loading the bundle *)

(** Loading succeeds exactly when the four keys [model], [num_imputer],
    [num_scaler] and [numeric_cols] are in the pickled dict; the three
    metadata keys are taken as they are, there or not. *)
Theorem load_model_needs_four_keys p saved metrics :
  load_model (Some p) = Ok (saved, metrics) <->
  pickled_model p = Some (model saved) /\
  pickled_num_imputer p = Some (num_imputer saved) /\
  pickled_num_scaler p = Some (num_scaler saved) /\
  pickled_numeric_cols p = Some (numeric_cols saved) /\
  metrics = Build_Metrics (pickled_accuracy p) (pickled_confusion_matrix p)
                          (pickled_report p).
Proof.
  unfold load_model, subscript. split.
  - destruct (pickled_model p), (pickled_num_imputer p),
      (pickled_num_scaler p), (pickled_numeric_cols p); try discriminate.
    intros [= <- <-]. simpl. repeat split.
  - intros [Hm [Hi [Hs [Hc ->]]]]. rewrite Hm, Hi, Hs, Hc.
    destruct saved. reflexivity.
Qed.

(** When the model file is there but loading fails, the exception is a key
    error that names the first of [model], [num_imputer], [num_scaler],
    [numeric_cols], in this order, that the pickled dict lacks; the script
    ends there: nothing is drawn, no object is called, no file is touched. *)
Theorem load_failure_names_key p e :
  load_model (Some p) = Raise e ->
  ((pickled_model p = None /\ e = KeyError "model") \/
   (pickled_model p <> None /\ pickled_num_imputer p = None /\
    e = KeyError "num_imputer") \/
   (pickled_model p <> None /\ pickled_num_imputer p <> None /\
    pickled_num_scaler p = None /\ e = KeyError "num_scaler") \/
   (pickled_model p <> None /\ pickled_num_imputer p <> None /\
    pickled_num_scaler p <> None /\ pickled_numeric_cols p = None /\
    e = KeyError "numeric_cols")) /\
  forall session w, script (Some p) session w = (Raise e, ([], w)).
Proof.
  intros Hload. split.
  - revert Hload. unfold load_model, subscript.
    destruct (pickled_model p); [|intros [= <-]; left; tauto].
    destruct (pickled_num_imputer p);
      [|intros [= <-]; right; left; repeat split; congruence].
    destruct (pickled_num_scaler p);
      [|intros [= <-]; right; right; left; repeat split; congruence].
    destruct (pickled_numeric_cols p); [discriminate|].
    intros [= <-]. right; right; right. repeat split; congruence.
  - intros session w. unfold script. rewrite Hload. reflexivity.
Qed.

(** ** The sidebar *)

Lemma widest_rectangular rows cols :
  rows <> [] -> Forall (fun r => length r = cols) rows -> widest rows = cols.
Proof.
  induction rows as [|r rows IH]; intros Hne Hcols; [congruence|].
  inversion Hcols as [|? ? Hr Hrest]; subst. unfold widest. simpl.
  destruct rows as [|r' rows].
  - simpl. apply Nat.max_0_r.
  - fold (widest (r' :: rows)). rewrite IH by (try assumption; discriminate).
    apply Nat.max_id.
Qed.

Lemma confusion_frame_two_by_two cm :
  length (matrix_rows cm) = 2%nat ->
  Forall (fun r => length r = 2%nat) (matrix_rows cm) ->
  confusion_frame cm
  = Ok (SidebarTable ["Actual 0"; "Actual 1"] ["Pred 0"; "Pred 1"]
                     (matrix_rows cm)).
Proof.
  intros Hrows Hcols. destruct cm as [rows | rows]; simpl in *.
  - rewrite Hrows. simpl.
    assert (Hall : forallb (fun r => Nat.eqb (length r) 2) rows = true).
    { apply forallb_forall. rewrite Forall_forall in Hcols.
      intros r Hr. rewrite (Hcols r Hr). reflexivity. }
    rewrite Hall. reflexivity.
  - destruct rows as [|r rows]; [reflexivity|].
    rewrite (widest_rectangular (r :: rows) 2) by (assumption || discriminate).
    rewrite Hrows. reflexivity.
Qed.

Lemma confusion_frame_other_shape cm rows cols :
  matrix_rows cm <> [] ->
  length (matrix_rows cm) = rows ->
  Forall (fun r => length r = cols) (matrix_rows cm) ->
  cols <> 2%nat \/ (3 <= rows)%nat ->
  confusion_frame cm = Raise ValueError.
Proof.
  intros Hne Hrows Hcols Hshape. destruct cm as [table | table]; simpl in *.
  - destruct (Nat.eqb (length table) 2) eqn:E; [|reflexivity]. simpl.
    apply Nat.eqb_eq in E.
    destruct Hshape as [Hc | Hr]; [|lia].
    destruct table as [|r table]; [congruence|].
    inversion Hcols as [|? ? Hlen _]; subst. simpl.
    apply Nat.eqb_neq in Hc. rewrite Hc. reflexivity.
  - destruct table as [|r table]; [congruence|].
    rewrite (widest_rectangular (r :: table) cols) by assumption.
    destruct Hshape as [Hc | Hr].
    + apply Nat.eqb_neq in Hc. rewrite Hc. reflexivity.
    + destruct (Nat.eqb cols 2); [|reflexivity].
      destruct table as [|r2 [|r3 table]]; simpl in *; try lia.
      reflexivity.
Qed.

Lemma load_model_needs_four_keys_aux p saved metrics :
  load_model (Some p) = Ok (saved, metrics) ->
  load_model (Some p)
  = Ok (saved, Build_Metrics (pickled_accuracy p)
                 (pickled_confusion_matrix p) (pickled_report p)) /\
  metrics = Build_Metrics (pickled_accuracy p) (pickled_confusion_matrix p)
                          (pickled_report p).
Proof.
  unfold load_model, subscript.
  destruct (pickled_model p), (pickled_num_imputer p),
    (pickled_num_scaler p), (pickled_numeric_cols p); try discriminate.
  intros [= <- <-]. split; reflexivity.
Qed.

(** With no confusion matrix in the bundle, or one of two rows and two
    columns (array or list of lists), the sidebar raises nothing and draws,
    under its title, exactly the entries that are there, in the order
    accuracy, confusion matrix, report; an entry that is not there leaves
    no trace. *)
Theorem sidebar_shows_what_is_there m :
  (forall cm, model_cm m = Some cm ->
              length (matrix_rows cm) = 2%nat /\
              Forall (fun r => length r = 2%nat) (matrix_rows cm)) ->
  sidebar m =
  (Ok tt,
   SidebarTitle "About the Model" ::
   shown (model_accuracy m) (fun a => [SidebarMetric "Test Accuracy" a]) ++
   shown (model_cm m)
     (fun cm => [SidebarText "Confusion Matrix (test data):";
                 SidebarTable ["Actual 0"; "Actual 1"] ["Pred 0"; "Pred 1"]
                              (matrix_rows cm)]) ++
   shown (model_report m)
     (fun r => [SidebarExpander "Classification Report" r])).
Proof.
  intros Hshape. unfold sidebar, sidebar_report, shown.
  destruct (model_cm m) as [cm|].
  - destruct (Hshape cm eq_refl) as [Hrows Hcols].
    rewrite (confusion_frame_two_by_two cm Hrows Hcols).
    destruct (model_accuracy m), (model_report m); reflexivity.
  - destruct (model_accuracy m), (model_report m); reflexivity.
Qed.

(** A bundle whose confusion matrix, array or list of lists, has rows of a
    width other than two, or three rows or more (a model of three classes,
    say), stops the script in the sidebar with a value error: the table and
    the report are not drawn, and neither is the page: no input field, no
    button, no call to the bundle's objects. *)
Theorem odd_confusion_matrix_stops_script p saved metrics cm rows cols
    session w :
  load_model (Some p) = Ok (saved, metrics) ->
  pickled_confusion_matrix p = Some cm ->
  matrix_rows cm <> [] ->
  length (matrix_rows cm) = rows ->
  Forall (fun r => length r = cols) (matrix_rows cm) ->
  cols <> 2%nat \/ (3 <= rows)%nat ->
  script (Some p) session w
  = (Raise ValueError,
     (SidebarTitle "About the Model" ::
      shown (pickled_accuracy p)
        (fun a => [SidebarMetric "Test Accuracy" a]) ++
      [SidebarText "Confusion Matrix (test data):"],
      w)).
Proof.
  intros Hload Hcm Hne Hrows Hcols Hshape.
  apply load_model_needs_four_keys_aux in Hload.
  destruct Hload as [Hload ->].
  unfold script. rewrite Hload. unfold sidebar. simpl. rewrite Hcm.
  rewrite (confusion_frame_other_shape cm rows cols) by assumption.
  destruct (pickled_accuracy p); reflexivity.
Qed.

(** ** From the form to the imputer *)

Lemma field_min_zero_or_none col :
  fst (field_args col) = Some 0%Q \/ fst (field_args col) = None.
Proof.
  destruct (known_column col) eqn:E.
  - left. apply known_column_min. assumption.
  - right. rewrite unknown_column_no_min by assumption. reflexivity.
Qed.

Lemma field_value_entered session col v :
  entered session col = Some v -> (0 <= v)%Q -> field_value session col = v.
Proof.
  intros Hv Hpos. unfold field_value, accepted_value. rewrite Hv.
  destruct (field_min_zero_or_none col) as [Hmin | Hmin]; rewrite Hmin.
  - apply Qle_bool_iff in Hpos. rewrite Hpos. reflexivity.
  - reflexivity.
Qed.

Lemma field_default_nonneg col : (0 <= snd (field_args col))%Q.
Proof.
  unfold field_args.
  repeat match goal with
         | |- context [if contains ?a ?b then _ else _] =>
             destruct (contains a b)
         end; simpl; unfold Qle; simpl; lia.
Qed.

(** The calls a run of the script makes are those of the pipeline on the
    values of the form, when the button was pressed. *)
Lemma app_calls saved session w :
  clicked session = true ->
  calls (snd (app saved session w))
  = calls w
    ++ snd (pipeline_outcome saved
              (form_values session (numeric_cols saved) [])).
Proof.
  intros Hclick. rewrite app_run, Hclick. cbv zeta.
  rewrite on_predict_run. cbv zeta.
  destruct (fst (pipeline_outcome saved _)) as [r|e]; [|reflexivity].
  simpl. destruct (disk_writable w); reflexivity.
Qed.

(** Streamlit refuses two fields with one label, so from here on the names
    in [numeric_cols] are taken to differ wherever the form is run. *)

(** A number that is not negative, typed into the field of a feature,
    reaches the imputer as typed, in the column of that feature: whatever
    the name of the feature, the form does not change it. *)
Theorem typed_value_reaches_imputer saved session w c v :
  NoDup (numeric_cols saved) ->
  clicked session = true ->
  In c (numeric_cols saved) ->
  entered session c = Some v ->
  (0 <= v)%Q ->
  exists r made,
    calls (snd (app saved session w))
    = calls w ++ CallImputer (mkDataFrame (numeric_cols saved) [r]) :: made /\
    cell_at (numeric_cols saved) r c = Some (Num v).
Proof.
  intros _ Hclick Hc Hv Hpos.
  pose proof (assemble_form_values saved session) as Hasm.
  destruct (pipeline_calls_in_order saved _ _ Hasm) as [made [Hmade _]].
  exists (map Num (map (field_value session) (numeric_cols saved))), made.
  split.
  - rewrite app_calls by assumption. rewrite Hmade. reflexivity.
  - rewrite map_map.
    rewrite (cell_at_map (fun c => Num (field_value session c))) by assumption.
    rewrite (field_value_entered session c v) by assumption. reflexivity.
Qed.

(** A form that the user did not touch submits the default of every field,
    and no default is negative, also for a feature whose name the form does
    not know. *)
Theorem untouched_form_submits_defaults saved session w :
  NoDup (numeric_cols saved) ->
  (forall c, In c (numeric_cols saved) -> entered session c = None) ->
  exists values w',
    input_form saved session w = (Ok values, w') /\
    forall c, In c (numeric_cols saved) ->
      Dict.get values c = Some (snd (field_args c)) /\
      (0 <= snd (field_args c))%Q.
Proof.
  intros _ Huntouched. rewrite input_form_run.
  eexists. eexists. split; [reflexivity|].
  intros c Hc. split; [|apply field_default_nonneg].
  rewrite get_form_value by assumption.
  unfold field_value, accepted_value. rewrite (Huntouched c Hc). reflexivity.
Qed.

(** The form gives the input mapping exactly the names of [numeric_cols] as
    keys, in that order, each with a value, whatever the user did; so in a
    run of the script assembling the row never meets a missing key. *)
Theorem form_supplies_every_feature saved session w :
  NoDup (numeric_cols saved) ->
  exists values w' X_num,
    input_form saved session w = (Ok values, w') /\
    Dict.keys values = numeric_cols saved /\
    (forall c, In c (numeric_cols saved) <-> Dict.get values c <> None) /\
    assemble saved values = Ok X_num /\
    columns X_num = numeric_cols saved.
Proof.
  intros Hnd. rewrite input_form_run. eexists. eexists. eexists.
  split; [reflexivity|]. split.
  { rewrite form_values_NoDup; [|assumption | intros c _ []].
    unfold Dict.keys. simpl. rewrite map_map. apply map_id. }
  split.
  - intros c. rewrite get_form_values. split.
    + intros Hc. apply mem_In in Hc. rewrite Hc. discriminate.
    + destruct (mem c (numeric_cols saved)) eqn:E.
      * intros _. apply mem_In. assumption.
      * simpl. congruence.
  - rewrite assemble_form_values. split; reflexivity.
Qed.

(** ** A run without a press, and a run with one *)

(** Without a press of the button the script calls none of the bundle's
    objects and leaves the history file alone: it draws the form, the hint
    in place of the card, and the history as [pd.read_csv] reads it from
    disk, and raises nothing, whatever the bundle and whether or not the
    disk takes writes. *)
Theorem no_click_no_inference saved session w :
  NoDup (numeric_cols saved) ->
  clicked session = false ->
  exists w',
    app saved session w = (Ok tt, w') /\
    calls w' = calls w /\
    history_file w' = history_file w /\
    page w' = page w ++ form_elements saved
              ++ [Subheader "Prediction"; Placeholder;
                  Subheader "Prediction History";
                  history_view (read_file w)].
Proof.
  intros _ Hclick. rewrite app_run, Hclick. cbv zeta.
  eexists. split; [reflexivity|]. simpl. rewrite <- app_assoc.
  repeat split.
Qed.

(** The last row of the table that [append] writes holds, under every key
    of the row, the number the row has there. *)
Lemma appended_last_cells old (row : dict Q) :
  exists rows last,
    data (appended old row) = rows ++ [last] /\
    forall c v,
      Dict.get row c = Some v ->
      cell_at (columns (appended old row)) last c = Some (Num v).
Proof.
  assert (Hkey : forall c v, Dict.get row c = Some v ->
                             In c (Dict.keys row)).
  { intros c v Hv.
    destruct (in_dec string_dec c (Dict.keys row)) as [Hin | Hout];
      [assumption|].
    apply get_None_not_key in Hout. congruence. }
  destruct old as [hist|]; simpl appended.
  - set (header := columns (concat hist (DataFrame_of_record row))).
    exists (map (reindex (columns hist) header) (data hist)),
           (reindex (Dict.keys row) header (map Num (Dict.values row))).
    split; [reflexivity|]. intros c v Hv.
    rewrite cell_at_reindex.
    assert (Hc : mem c header = true).
    { apply mem_In, concat_columns_cover. exact (Hkey c v Hv). }
    rewrite Hc, cell_at_record, get_cells_of, Hv. reflexivity.
  - exists [], (map Num (Dict.values row)). split; [reflexivity|].
    intros c v Hv. simpl. rewrite cell_at_record, get_cells_of, Hv.
    reflexivity.
Qed.

(** After a press, when the pipeline succeeds and the file is written
    (feature names distinct and none empty, the header read from the file,
    if there is one, without a name twice), the page shows the form, the
    notice, the card (churn exactly when the label is 1, any other label
    reads as no churn) with the probability, and the history table read
    back from the file just written.  The last row of that table is the
    prediction of this very run: under every name of the history row (each
    feature, [Prediction], [Churn_Probability]) it holds the number the
    reader makes of the value entered, the label, the probability. *)
Theorem successful_click_page saved session w values pred proba :
  NoDup (numeric_cols saved) ->
  ~ In "" (numeric_cols saved) ->
  (forall hist, read_file w = Some hist -> NoDup (columns hist)) ->
  clicked session = true ->
  disk_writable w = true ->
  fst (input_form saved session w) = Ok values ->
  fst (predict_pipeline saved values w) = Ok (pred, proba) ->
  exists w' written rows last,
    app saved session w = (Ok tt, w') /\
    history_file w' = Some written /\
    page w' = page w ++ form_elements saved
              ++ [Info "Prediction saved to history";
                  Subheader "Prediction";
                  PredictionCard (Z.eqb pred 1) proba;
                  Subheader "Prediction History";
                  Dataframe (as_read (csv_number w) written)] /\
    records (as_read (csv_number w) written) = rows ++ [last] /\
    forall c v,
      Dict.get (history_row values pred proba) c = Some v ->
      Dict.get last c = Some (Num (csv_number w v)).
Proof.
  intros _ Hnamed _ Hclick Hdisk Hform Hpipe.
  rewrite input_form_run in Hform. simpl in Hform. injection Hform as <-.
  rewrite predict_pipeline_outcome in Hpipe.
  set (values := form_values session (numeric_cols saved) []) in *.
  set (row := history_row values pred proba).
  assert (Hvalues_named : ~ In "" (Dict.keys values)).
  { apply get_None_not_key. unfold values. rewrite get_form_values.
    destruct (mem "" (numeric_cols saved)) eqn:E; [|reflexivity].
    apply mem_In in E. tauto. }
  assert (Hheader : ~ In "" (columns (appended (read_file w) row))).
  { apply appended_header_named.
    - intros hist Hhist. apply (read_file_named w). assumption.
    - apply history_row_named. assumption. }
  destruct (appended_last_cells (read_file w) row)
    as [rows [last [Hdata Hcells]]].
  rewrite app_run, Hclick. cbv zeta. fold values.
  rewrite on_predict_run, Hpipe. simpl. rewrite Hdisk. fold row.
  exists (with_page
            (with_page
               (with_history
                  (with_calls (with_page w (form_elements saved))
                     (snd (pipeline_outcome saved values)))
                  (appended (read_file w) row))
               [Info "Prediction saved to history"])
            [Subheader "Prediction"; PredictionCard (Z.eqb pred 1) proba;
             Subheader "Prediction History";
             Dataframe (as_read (csv_number w)
                          (appended (read_file w) row))]),
         (appended (read_file w) row),
         (map (fun r => combine (columns (appended (read_file w) row)) r)
              (map (map (cell_as_read (csv_number w))) rows)),
         (combine (columns (appended (read_file w) row))
                  (map (cell_as_read (csv_number w)) last)).
  split; [reflexivity|]. split; [reflexivity|]. split.
  { simpl. unfold form_elements. simpl. rewrite <- ?app_assoc. simpl.
    rewrite <- ?app_assoc. reflexivity. }
  split.
  - unfold as_read, records. simpl columns. simpl data.
    rewrite (header_as_read_named _ 0%nat Hheader).
    rewrite Hdata, !map_app. reflexivity.
  - intros c v Hv. rewrite get_combine, cell_at_as_read.
    rewrite (Hcells c v Hv). reflexivity.
Qed.

(** Whatever makes the pipeline fail after a press (a missing value, a
    transform, the shape of the scaled row, [predict], [predict_proba], an
    index out of range), the run ends with that exception right after the
    button: the history file is what it was, and neither the notice nor the
    card is drawn. *)
Theorem failed_pipeline_leaves_no_trace saved session w values e :
  NoDup (numeric_cols saved) ->
  clicked session = true ->
  fst (input_form saved session w) = Ok values ->
  fst (predict_pipeline saved values w) = Raise e ->
  exists w',
    app saved session w = (Raise e, w') /\
    history_file w' = history_file w /\
    page w' = page w ++ form_elements saved.
Proof.
  intros _ Hclick Hform Hpipe.
  rewrite input_form_run in Hform. simpl in Hform. injection Hform as <-.
  rewrite predict_pipeline_outcome in Hpipe.
  rewrite app_run, Hclick. cbv zeta.
  rewrite on_predict_run, Hpipe. simpl.
  eexists. repeat split.
Qed.

(** ** The stages of the pipeline *)

Lemma DataFrame_of_array_mismatch arr cols r :
  In r arr -> length r <> length cols ->
  DataFrame_of_array arr cols = Raise ValueError.
Proof.
  intros Hr Hlen. unfold DataFrame_of_array.
  destruct (forallb _ arr) eqn:E; [|reflexivity].
  rewrite forallb_forall in E. specialize (E r Hr).
  apply Nat.eqb_eq in E. congruence.
Qed.

(** When the scaler returns a row that is not as wide as [numeric_cols],
    the pipeline raises a value error on building the frame for the
    classifier: the imputer and the scaler were called, the classifier is
    not. *)
Theorem scaled_width_mismatch_raises saved values w X_num X_imp X_scaled r :
  assemble saved values = Ok X_num ->
  imputer_transform (num_imputer saved) X_num = Ok X_imp ->
  scaler_transform (num_scaler saved) X_imp = Ok X_scaled ->
  In r X_scaled ->
  length r <> length (numeric_cols saved) ->
  predict_pipeline saved values w
  = (Raise ValueError, with_calls w [CallImputer X_num; CallScaler X_imp]).
Proof.
  intros Hasm Himp Hsc Hr Hlen.
  rewrite predict_pipeline_run. unfold pipeline_outcome.
  rewrite Hasm, Himp, Hsc.
  rewrite (DataFrame_of_array_mismatch _ _ r Hr Hlen). reflexivity.
Qed.

(** When [predict_proba] gives a first row with fewer than two entries (a
    classifier that knows one class only), the attempt ends with an index
    error after all four calls were made, and nothing is written. *)
Theorem single_class_proba_raises saved values w
    X_num X_imp X_scaled X_final pred preds first probas :
  assemble saved values = Ok X_num ->
  imputer_transform (num_imputer saved) X_num = Ok X_imp ->
  scaler_transform (num_scaler saved) X_imp = Ok X_scaled ->
  DataFrame_of_array X_scaled (numeric_cols saved) = Ok X_final ->
  predict (model saved) X_final = Ok (pred :: preds) ->
  predict_proba (model saved) X_final = Ok (first :: probas) ->
  (length first < 2)%nat ->
  exists w',
    on_predict saved values w = (Raise IndexError, w') /\
    calls w' = calls w ++ [CallImputer X_num; CallScaler X_imp;
                           CallPredict X_final; CallPredictProba X_final] /\
    history_file w' = history_file w /\
    page w' = page w.
Proof.
  intros Hasm Himp Hsc Hdf Hpred Hproba Hshort.
  assert (Hindex : index first 1 = Raise IndexError).
  { unfold index. destruct first as [|p0 [|p1 rest]]; simpl in *;
      try reflexivity; lia. }
  rewrite on_predict_run. unfold pipeline_outcome.
  rewrite Hasm, Himp, Hsc, Hdf, Hpred. simpl. rewrite Hproba. simpl.
  rewrite Hindex. simpl. eexists. repeat split.
Qed.

(** A pipeline that returns made exactly four calls, in the order imputer,
    scaler, [predict], [predict_proba], each on what the one before gave;
    the label and the probability come from one and the same frame; and the
    pipeline touched neither the history file nor the page. *)
Theorem successful_pipeline_calls saved values w pred proba w' :
  predict_pipeline saved values w = (Ok (pred, proba), w') ->
  exists X_num X_imp X_scaled preds probas first,
    assemble saved values = Ok X_num /\
    imputer_transform (num_imputer saved) X_num = Ok X_imp /\
    scaler_transform (num_scaler saved) X_imp = Ok X_scaled /\
    let X_final := mkDataFrame (numeric_cols saved) X_scaled in
    predict (model saved) X_final = Ok (pred :: preds) /\
    predict_proba (model saved) X_final = Ok (first :: probas) /\
    nth_error first 1 = Some proba /\
    calls w' = calls w ++ [CallImputer X_num; CallScaler X_imp;
                           CallPredict X_final; CallPredictProba X_final] /\
    history_file w' = history_file w /\
    page w' = page w.
Proof.
  rewrite predict_pipeline_run. unfold pipeline_outcome.
  destruct (assemble saved values) as [X_num|] eqn:Hasm; [|discriminate].
  destruct (imputer_transform _ X_num) as [X_imp|] eqn:Himp; [|discriminate].
  destruct (scaler_transform _ X_imp) as [X_scaled|] eqn:Hsc; [|discriminate].
  destruct (DataFrame_of_array X_scaled _) as [X_final|] eqn:Hdf;
    [|discriminate].
  assert (HX : X_final = mkDataFrame (numeric_cols saved) X_scaled).
  { apply DataFrame_of_array_Ok in Hdf. destruct X_final, Hdf; simpl in *.
    subst. reflexivity. }
  subst X_final.
  destruct (predict _ _) as [preds|] eqn:Hpred; [|discriminate].
  unfold index at 1.
  destruct preds as [|pred0 preds]; simpl; [discriminate|].
  destruct (predict_proba _ _) as [probas|] eqn:Hproba; [|discriminate].
  unfold index at 1.
  destruct probas as [|first probas]; simpl; [discriminate|].
  unfold index.
  destruct (nth_error first 1) as [p|] eqn:Hp; [|discriminate].
  intros [= -> -> <-].
  exists X_num, X_imp, X_scaled, preds, probas, first.
  cbv zeta. rewrite Hpred, Hproba. repeat split; assumption.
Qed.

(** ** The history row and the ledger *)

(** The history row always holds the label under [Prediction] and the
    probability under [Churn_Probability], and under every other name what
    the input mapping holds under it. *)
Theorem history_row_fields values pred proba :
  Dict.get (history_row values pred proba) "Prediction"
  = Some (inject_Z pred) /\
  Dict.get (history_row values pred proba) "Churn_Probability"
  = Some proba /\
  forall c, c <> "Prediction" -> c <> "Churn_Probability" ->
            Dict.get (history_row values pred proba) c = Dict.get values c.
Proof.
  unfold history_row, Dict.copy. repeat split.
  - rewrite !get_set. reflexivity.
  - rewrite get_set. reflexivity.
  - intros c Hp Hc. rewrite !get_set.
    apply String.eqb_neq in Hp, Hc. rewrite Hp, Hc. reflexivity.
Qed.

Lemma reindex_length cols cols' r : length (reindex cols cols' r) = length cols'.
Proof. unfold reindex. apply length_map. Qed.

Lemma NoDup_new_columns colsA colsB :
  NoDup colsA -> NoDup colsB ->
  NoDup (colsA ++ filter (fun c => negb (mem c colsA)) colsB).
Proof.
  intros HA HB. apply NoDup_app.
  - assumption.
  - apply NoDup_filter. assumption.
  - intros c Hin Hnew. apply filter_In in Hnew. destruct Hnew as [_ Hnew].
    apply mem_In in Hin. rewrite Hin in Hnew. discriminate.
Qed.

Lemma appended_well_formed old row :
  NoDup (Dict.keys row) ->
  (forall hist, old = Some hist -> well_formed hist) ->
  well_formed (appended old row).
Proof.
  intros Hrow Hold. destruct old as [hist|]; simpl.
  - destruct (Hold hist eq_refl) as [Hnd _]. split; simpl.
    + apply NoDup_new_columns; assumption.
    + apply Forall_app. split.
      * apply Forall_forall. intros r Hr. apply in_map_iff in Hr.
        destruct Hr as [r0 [<- _]]. apply reindex_length.
      * constructor; [apply reindex_length | constructor].
  - split; simpl.
    + assumption.
    + constructor; [|constructor].
      unfold Dict.keys, Dict.values. rewrite !length_map. reflexivity.
Qed.

(** Appending keeps the ledger a table: when the table read from the file,
    if there is one, has no column name twice and every row as wide as its
    header, and the row has no key twice, the file written has these
    properties again. *)
Theorem append_keeps_table row w w' :
  NoDup (Dict.keys row) ->
  (forall hist, read_file w = Some hist -> well_formed hist) ->
  append row w = (Ok tt, w') ->
  exists hist', history_file w' = Some hist' /\ well_formed hist'.
Proof.
  intros Hrow Hold. rewrite append_run.
  destruct (disk_writable w); [|discriminate].
  intros [= <-]. eexists. split; [reflexivity|].
  apply appended_well_formed; assumption.
Qed.

(** Appending to a file that exists never drops, renames or moves a column
    of the table it read (line 192): the header written is the header read,
    followed by the keys of the row that the header read did not have; and
    the table written has one row more than the table read. *)
Theorem append_extends_header row w w' hist :
  read_file w = Some hist ->
  append row w = (Ok tt, w') ->
  exists hist' extra,
    history_file w' = Some hist' /\
    columns hist' = columns hist ++ extra /\
    (forall c, In c extra <->
               In c (Dict.keys row) /\ ~ In c (columns hist)) /\
    length (data hist') = S (length (data hist)).
Proof.
  intros Hfile. rewrite append_run, Hfile.
  destruct (disk_writable w); [|discriminate].
  intros [= <-]. eexists. eexists. split; [reflexivity|]. simpl.
  split; [reflexivity|]. split.
  - intros c. rewrite filter_In, negb_true_iff.
    split; intros [Hin Hnot]; (split; [assumption|]).
    + intros Hc. apply mem_In in Hc. congruence.
    + destruct (mem c (columns hist)) eqn:E; [|reflexivity].
      apply mem_In in E. tauto.
  - rewrite length_app, !length_map. simpl. lia.
Qed.

(** ** A session of runs *)

Lemma fitted_pipeline_succeeds saved values :
  fitted saved ->
  (forall c, In c (numeric_cols saved) -> Dict.get values c <> None) ->
  exists r, fst (pipeline_outcome saved values) = Ok r.
Proof.
  intros Hfit Hall.
  destruct (assemble_present saved values Hall) as [vs [Hf Hasm]].
  set (n := length (numeric_cols saved)).
  set (X_num := mkDataFrame (numeric_cols saved) [map Num vs]) in *.
  assert (Hrow : one_row n (data X_num)).
  { exists (map Num vs). split; [reflexivity|].
    rewrite length_map. symmetry. eapply Forall2_length. exact Hf. }
  destruct (imputer_keeps_shape saved Hfit X_num eq_refl Hrow)
    as [X_imp [Himp Himp_row]].
  destruct (scaler_keeps_shape saved Hfit X_imp Himp_row)
    as [X_scaled [Hsc Hsc_row]].
  pose proof (DataFrame_of_one_row n X_scaled (numeric_cols saved)
                eq_refl Hsc_row) as Hdf.
  set (X_final := mkDataFrame (numeric_cols saved) X_scaled) in *.
  destruct (predict_binary saved Hfit X_final eq_refl Hsc_row)
    as [label [Hpred _]].
  destruct (predict_proba_pair saved Hfit X_final eq_refl Hsc_row)
    as [p0 [p1 [Hproba _]]].
  exists (label, p1). unfold pipeline_outcome.
  rewrite Hasm, Himp, Hsc, Hdf, Hpred. simpl. rewrite Hproba. reflexivity.
Qed.

Lemma appended_size old row :
  length (data (appended old row))
  = S match old with Some hist => length (data hist) | None => 0%nat end.
Proof.
  destruct old as [hist|]; simpl.
  - rewrite length_app, !length_map. simpl. lia.
  - reflexivity.
Qed.

Lemma rerun_step saved session w :
  fitted saved ->
  disk_writable w = true ->
  fst (rerun saved session w) = Ok tt /\
  disk_writable (snd (rerun saved session w)) = true /\
  ledger_size (snd (rerun saved session w))
  = (ledger_size w + if clicked session then 1 else 0)%nat.
Proof.
  intros Hfit Hdisk. unfold rerun. rewrite app_run. cbv zeta.
  destruct (clicked session).
  - rewrite on_predict_run. cbv zeta.
    destruct (fitted_pipeline_succeeds saved
                (form_values session (numeric_cols saved) []) Hfit)
      as [r Hr].
    { intros c Hc. rewrite get_form_value by assumption. discriminate. }
    rewrite Hr. simpl. rewrite Hdisk. simpl.
    repeat split; try assumption.
    unfold ledger_size. simpl. rewrite appended_size.
    unfold read_file. simpl.
    destruct (history_file w); simpl; rewrite ?length_map; lia.
  - simpl. repeat split; try assumption. unfold ledger_size. simpl. lia.
Qed.

(** With a bundle that keeps its contract, on a disk that takes writes, the
    ledger grows by exactly one row for each run in which the button was
    pressed and by none for the others: after a session it has as many rows
    more as there were presses, whatever was typed into the fields. *)
Theorem one_row_per_press saved interactions w :
  NoDup (numeric_cols saved) ->
  fitted saved ->
  disk_writable w = true ->
  ledger_size (session_runs saved interactions w)
  = (ledger_size w + presses interactions)%nat.
Proof.
  intros _ Hfit. revert w.
  induction interactions as [|session rest IH]; intros w Hdisk; simpl.
  - unfold presses. simpl. lia.
  - destruct (rerun_step saved session w Hfit Hdisk) as [_ [Hdisk' Hsize]].
    rewrite (IH _ Hdisk'), Hsize. unfold presses. simpl.
    destruct (clicked session); simpl; lia.
Qed.


(** ** The further scenarios, run *)

Lemma load_failure_names_key_witness :
  load_model (Some Cases.pickle_without_scaler)
  = Raise (KeyError "num_scaler") /\
  forall session w,
    script (Some Cases.pickle_without_scaler) session w
    = (Raise (KeyError "num_scaler"), ([], w)).
Proof.
  split; [reflexivity|].
  exact (proj2 (load_failure_names_key Cases.pickle_without_scaler
                  (KeyError "num_scaler") eq_refl)).
Defined.

Lemma sidebar_shows_what_is_there_witness :
  sidebar (Build_Metrics (Some (9 # 10)%Q)
             (Some (NestedList [[50; 10]; [5; 35]]%Z)) None)
  = (Ok tt,
     [SidebarTitle "About the Model";
      SidebarMetric "Test Accuracy" (9 # 10)%Q;
      SidebarText "Confusion Matrix (test data):";
      SidebarTable ["Actual 0"; "Actual 1"] ["Pred 0"; "Pred 1"]
                   [[50; 10]; [5; 35]]%Z]).
Proof.
  apply (sidebar_shows_what_is_there
           (Build_Metrics (Some (9 # 10)%Q)
              (Some (NestedList [[50; 10]; [5; 35]]%Z)) None)).
  simpl. intros cm [= <-]. split; [reflexivity|].
  repeat constructor.
Defined.

Lemma odd_confusion_matrix_stops_script_witness :
  script (Some Cases.three_class_pickle) Scenario.session Scenario.fresh
  = (Raise ValueError,
     ([SidebarTitle "About the Model";
       SidebarMetric "Test Accuracy" (9 # 10)%Q;
       SidebarText "Confusion Matrix (test data):"],
      Scenario.fresh)).
Proof.
  apply (odd_confusion_matrix_stops_script Cases.three_class_pickle
           Scenario.bundle
           (Build_Metrics (Some (9 # 10)%Q)
              (Some (NestedList [[30; 2; 1]; [3; 30; 2]; [1; 1; 30]]%Z))
              (Some "three classes"))
           (NestedList [[30; 2; 1]; [3; 30; 2]; [1; 1; 30]]%Z) 3 3).
  - reflexivity.
  - reflexivity.
  - discriminate.
  - reflexivity.
  - repeat constructor.
  - left. discriminate.
Defined.

Lemma typed_value_reaches_imputer_witness :
  exists r made,
    calls (snd (app Scenario.bundle Scenario.session Scenario.fresh))
    = calls Scenario.fresh
      ++ CallImputer (mkDataFrame (numeric_cols Scenario.bundle) [r]) :: made
    /\
    cell_at (numeric_cols Scenario.bundle) r "Tenure" = Some (Num 2%Q).
Proof.
  apply (typed_value_reaches_imputer Scenario.bundle Scenario.session
           Scenario.fresh "Tenure" 2%Q).
  - exact scenario_columns_distinct.
  - reflexivity.
  - simpl. tauto.
  - reflexivity.
  - unfold Qle. simpl. lia.
Defined.

Lemma untouched_form_submits_defaults_witness :
  exists values w',
    input_form Scenario.bundle Cases.untouched Scenario.fresh
    = (Ok values, w') /\
    forall c, In c (numeric_cols Scenario.bundle) ->
      Dict.get values c = Some (snd (field_args c)) /\
      (0 <= snd (field_args c))%Q.
Proof.
  apply (untouched_form_submits_defaults Scenario.bundle Cases.untouched
           Scenario.fresh).
  - exact scenario_columns_distinct.
  - intros c _. reflexivity.
Defined.

Lemma no_click_no_inference_witness :
  exists w',
    app Scenario.broken_bundle Cases.idle Scenario.older = (Ok tt, w') /\
    calls w' = calls Scenario.older /\
    history_file w' = history_file Scenario.older /\
    page w' = page Scenario.older ++ form_elements Scenario.broken_bundle
              ++ [Subheader "Prediction"; Placeholder;
                  Subheader "Prediction History";
                  history_view (read_file Scenario.older)].
Proof.
  apply (no_click_no_inference Scenario.broken_bundle Cases.idle
           Scenario.older).
  - exact scenario_columns_distinct.
  - reflexivity.
Defined.

Lemma successful_click_page_witness :
  exists w' written rows last,
    app Scenario.bundle Scenario.session Scenario.older = (Ok tt, w') /\
    history_file w' = Some written /\
    page w' = page Scenario.older ++ form_elements Scenario.bundle
              ++ [Info "Prediction saved to history";
                  Subheader "Prediction";
                  PredictionCard (Z.eqb 1 1) (82 # 100)%Q;
                  Subheader "Prediction History";
                  Dataframe (as_read (csv_number Scenario.older) written)] /\
    records (as_read (csv_number Scenario.older) written) = rows ++ [last] /\
    forall c v,
      Dict.get (history_row [("Age", 45%Q); ("Tenure", 2%Q); ("Usage", 1%Q)]
                  1%Z (82 # 100)%Q) c = Some v ->
      Dict.get last c = Some (Num (csv_number Scenario.older v)).
Proof.
  apply (successful_click_page Scenario.bundle Scenario.session
           Scenario.older
           [("Age", 45%Q); ("Tenure", 2%Q); ("Usage", 1%Q)]
           1%Z (82 # 100)%Q).
  - exact scenario_columns_distinct.
  - simpl. intuition discriminate.
  - intros hist [= <-]. simpl.
    repeat constructor; simpl; intuition discriminate.
  - reflexivity.
  - reflexivity.
  - reflexivity.
  - reflexivity.
Defined.

Lemma failed_pipeline_leaves_no_trace_witness :
  exists w',
    app Cases.single_class_bundle Scenario.session Scenario.older
    = (Raise IndexError, w') /\
    history_file w' = history_file Scenario.older /\
    page w' = page Scenario.older ++ form_elements Cases.single_class_bundle.
Proof.
  apply (failed_pipeline_leaves_no_trace Cases.single_class_bundle
           Scenario.session Scenario.older
           [("Age", 45%Q); ("Tenure", 2%Q); ("Usage", 1%Q)] IndexError);
    [exact scenario_columns_distinct | reflexivity..].
Defined.

Lemma scaled_width_mismatch_raises_witness :
  predict_pipeline Cases.widening_bundle Scenario.shuffled_values
    Scenario.fresh
  = (Raise ValueError,
     with_calls Scenario.fresh
       [CallImputer Cases.frame; CallScaler (data Cases.frame)]).
Proof.
  apply (scaled_width_mismatch_raises Cases.widening_bundle
           Scenario.shuffled_values Scenario.fresh Cases.frame
           (data Cases.frame) (map (cons NaN) (data Cases.frame))
           [NaN; Num 45%Q; Num 2%Q; Num 1%Q]).
  - reflexivity.
  - reflexivity.
  - reflexivity.
  - simpl. left. reflexivity.
  - simpl. discriminate.
Defined.

Lemma single_class_proba_raises_witness :
  exists w',
    on_predict Cases.single_class_bundle Scenario.shuffled_values
      Scenario.older = (Raise IndexError, w') /\
    calls w' = calls Scenario.older
               ++ [CallImputer Cases.frame; CallScaler (data Cases.frame);
                   CallPredict Cases.frame; CallPredictProba Cases.frame] /\
    history_file w' = history_file Scenario.older /\
    page w' = page Scenario.older.
Proof.
  apply (single_class_proba_raises Cases.single_class_bundle
           Scenario.shuffled_values Scenario.older Cases.frame
           (data Cases.frame) (data Cases.frame) Cases.frame
           0%Z [] [1%Q] []).
  - reflexivity.
  - reflexivity.
  - reflexivity.
  - reflexivity.
  - reflexivity.
  - reflexivity.
  - simpl. lia.
Defined.

Lemma successful_pipeline_calls_witness :
  exists X_num X_imp X_scaled preds probas first,
    assemble Scenario.bundle Scenario.shuffled_values = Ok X_num /\
    imputer_transform (num_imputer Scenario.bundle) X_num = Ok X_imp /\
    scaler_transform (num_scaler Scenario.bundle) X_imp = Ok X_scaled /\
    let X_final := mkDataFrame (numeric_cols Scenario.bundle) X_scaled in
    predict (model Scenario.bundle) X_final = Ok (1%Z :: preds) /\
    predict_proba (model Scenario.bundle) X_final = Ok (first :: probas) /\
    nth_error first 1 = Some (82 # 100)%Q /\
    calls (snd (predict_pipeline Scenario.bundle Scenario.shuffled_values
                  Scenario.older))
    = calls Scenario.older
      ++ [CallImputer X_num; CallScaler X_imp;
          CallPredict X_final; CallPredictProba X_final] /\
    history_file (snd (predict_pipeline Scenario.bundle
                         Scenario.shuffled_values Scenario.older))
    = history_file Scenario.older /\
    page (snd (predict_pipeline Scenario.bundle Scenario.shuffled_values
                 Scenario.older))
    = page Scenario.older.
Proof.
  apply (successful_pipeline_calls Scenario.bundle Scenario.shuffled_values
           Scenario.older 1%Z (82 # 100)%Q).
  reflexivity.
Defined.

Lemma history_row_fields_witness :
  Dict.get (history_row [("Age", 30%Q); ("Prediction", 3%Q)] 1%Z (82 # 100)%Q)
           "Age" = Some 30%Q.
Proof.
  rewrite (proj2 (proj2 (history_row_fields
                           [("Age", 30%Q); ("Prediction", 3%Q)]
                           1%Z (82 # 100)%Q)) "Age");
    [reflexivity | discriminate | discriminate].
Defined.

Lemma append_keeps_table_witness :
  exists hist',
    history_file (snd (append Scenario.shuffled_values Scenario.older))
    = Some hist' /\ well_formed hist'.
Proof.
  apply (append_keeps_table Scenario.shuffled_values Scenario.older
           (snd (append Scenario.shuffled_values Scenario.older))).
  - simpl. repeat constructor; simpl; intuition discriminate.
  - intros hist [= <-]. split; simpl.
    + repeat constructor; simpl; intuition discriminate.
    + repeat constructor.
  - reflexivity.
Defined.

Lemma append_extends_header_witness :
  exists hist' extra,
    history_file (snd (append Scenario.shuffled_values Scenario.older))
    = Some hist' /\
    columns hist' = ["Age"; "Plan"] ++ extra /\
    (forall c, In c extra <->
               In c (Dict.keys Scenario.shuffled_values) /\
               ~ In c ["Age"; "Plan"]) /\
    length (data hist') = 2%nat.
Proof.
  apply (append_extends_header Scenario.shuffled_values Scenario.older
           (snd (append Scenario.shuffled_values Scenario.older))
           (mkDataFrame ["Age"; "Plan"] [[Num 30%Q; Num 2%Q]]));
    reflexivity.
Defined.

Lemma one_row_per_press_witness :
  ledger_size
    (session_runs Scenario.bundle
       [Cases.idle; Scenario.session; Cases.untouched; Cases.idle]
       Scenario.older)
  = (ledger_size Scenario.older
     + presses [Cases.idle; Scenario.session; Cases.untouched; Cases.idle])%nat.
Proof.
  apply (one_row_per_press Scenario.bundle
           [Cases.idle; Scenario.session; Cases.untouched; Cases.idle]
           Scenario.older).
  - exact scenario_columns_distinct.
  - exact scenario_fitted.
  - reflexivity.
Defined.

Lemma form_supplies_every_feature_witness :
  exists values w' X_num,
    input_form Scenario.bundle Scenario.session Scenario.fresh
    = (Ok values, w') /\
    Dict.keys values = numeric_cols Scenario.bundle /\
    (forall c, In c (numeric_cols Scenario.bundle) <->
               Dict.get values c <> None) /\
    assemble Scenario.bundle values = Ok X_num /\
    columns X_num = numeric_cols Scenario.bundle.
Proof.
  exact (form_supplies_every_feature Scenario.bundle Scenario.session
           Scenario.fresh scenario_columns_distinct).
Defined.
